(** * graphene-django-filter: settings resolver and input-type declarations

A shallow embedding of [graphene_django_filter/conf.py] and
[graphene_django_filter/input_types.py].

- Python dictionaries with string keys are [gmap string _]; the
  namespace of a class body is an insertion-ordered association list,
  because the factory builds it from a dict literal whose keys are
  computed and may coincide.
- A [Settings] instance is a mutable object: the lazily filled
  attribute [_user_settings] is threaded explicitly, and the module
  global [settings] is a location in a store of instances, so that
  "the same object" and "a fresh object" can be told apart.
- A dict is held by reference in Python.  [Conf] gives each mapping by
  its content at the time of a call; [ConfRef] has the same functions
  over a store of dict objects, for what depends on a dict being shared
  between the host configuration and an instance.
- An attribute read runs ordinary lookup before [__getattr__]:
  [getattribute] is the read, [__getattr__] the hook.
- Raising is modelled by the [Raise] outcome of [result]; [Unmodelled]
  marks the calls that reach behaviour of the interpreter or of graphene
  that is not modelled, about which nothing is stated. *)

From Stdlib Require Import Ascii.
From stdpp Require Import gmap strings list fin_maps.

Set Warnings "-register-all".

(** ** Python values and outcomes *)

Module Py.

(** The values a setting takes: [Union[str, bool]] in the source. *)
Inductive pyval : Type :=
| PStr (s : string)
| PBool (b : bool).

#[global] Instance pyval_eq_dec : EqDecision pyval.
Proof. solve_decision. Defined.

(** [ClassCreationError] stands for what creating a class raises when its
    namespace cannot be used (an [Exception] or [AttributeError] of
    graphene, a [TypeError] of the interpreter); which of them, and the
    message, is not modelled. *)
Inductive exc : Type :=
| AttributeError (msg : string)
| KeyError (key : string)
| ClassCreationError.

(** The outcome of a call.  [Unmodelled] is not an outcome of the program:
    it marks a call that reaches behaviour of the interpreter or of a
    library that is not modelled here, and nothing is stated about it. *)
Inductive result (A : Type) : Type :=
| Return (a : A)
| Raise (e : exc)
| Unmodelled.
Arguments Return {A} a.
Arguments Raise {A} e.
Arguments Unmodelled {A}.

(** [k in d] *)
Definition dict_contains {V} (k : string) (d : gmap string V) : bool :=
  match d !! k with Some _ => true | None => false end.

(** [d[k]] *)
Definition dict_getitem {V} (d : gmap string V) (k : string) : result V :=
  match d !! k with Some v => Return v | None => Raise (KeyError k) end.

(** [getattr(obj, name, dflt)] on an attribute that may be missing. *)
Definition getattr_or {A} (attr : option A) (dflt : A) : A :=
  match attr with Some a => a | None => dflt end.

(** Computations that read and update a state and may raise: the state
    reached so far survives a raise. *)
Definition run (S A : Type) : Type := S -> result A * S.

Definition ret {S A} (a : A) : run S A := fun s => (Return a, s).

Definition bind {S A B} (m : run S A) (k : A -> run S B) : run S B :=
  fun s =>
    match m s with
    | (Return a, s') => k a s'
    | (Raise e, s') => (Raise e, s')
    | (Unmodelled, s') => (Unmodelled, s')
    end.

(** A call that does not touch the state. *)
Definition pure_call {S A} (r : result A) : run S A := fun s => (r, s).

(** Names that begin with an underscore. *)
Definition underscore_name (s : string) : bool :=
  match s with
  | String a _ => bool_decide (a = "_"%char)
  | EmptyString => false
  end.

(** Names that begin with two underscores. *)
Definition double_underscore_name (s : string) : bool :=
  match s with
  | String a (String b _) =>
      bool_decide (a = "_"%char) && bool_decide (b = "_"%char)
  | _ => false
  end.

End Py.
Import Py.

Notation "'let*' x := m 'in' k" := (bind m (fun x => k))
  (at level 10, x name, m at level 100, k at level 200).

(** ** conf.py *)

Module Conf.

(** The two attributes of [django.conf.settings] the library reads.  An
    attribute that is not set is [None] here; the namespace attribute,
    when set, is a mapping (the return annotation of the
    [user_settings] property).

    In this module a mapping is given by its content.  Python holds dict
    objects by reference: what is written here as a mapping is the
    content, at the time of the call, of the dict object referred to.
    That describes any single call, and any sequence of calls between
    which no dict object is changed in place; module [ConfRef] below has
    the same functions over a store of dict objects, for what depends on
    a dict being shared. *)
Record DjangoSettings : Type := {
  GRAPHENE_DJANGO_FILTER_HAS_TRIGRAM_EXTENSION : option pyval;
  GRAPHENE_DJANGO_FILTER : option (gmap string pyval)
}.

(** [django.db.connection], of which only [vendor] is read. *)
Record Connection : Type := { vendor : string }.

Definition get_fixed_settings (connection : Connection)
    (django_settings : DjangoSettings) : gmap string pyval :=
  let is_postgresql := bool_decide (vendor connection = "postgresql") in
  let has_trigram_extension :=
    getattr_or (GRAPHENE_DJANGO_FILTER_HAS_TRIGRAM_EXTENSION django_settings)
               (PBool false) in
  <["HAS_TRIGRAM_EXTENSION" := has_trigram_extension]>
    (<["IS_POSTGRESQL" := PBool is_postgresql]> ∅).

Definition DEFAULT_SETTINGS : gmap string pyval :=
  <["NOT_KEY" := PStr "not"]>
    (<["OR_KEY" := PStr "or"]>
      (<["AND_KEY" := PStr "and"]>
        (<["FILTER_KEY" := PStr "filter"]> ∅))).

Definition DJANGO_SETTINGS_KEY : string := "GRAPHENE_DJANGO_FILTER".

(** An instance of [class Settings]: its only attribute. *)
Record Settings : Type := mkSettings {
  _user_settings : option (gmap string pyval)
}.

(** [Settings.__init__] *)
Definition __init__ (user_settings : option (gmap string pyval)) : Settings :=
  {| _user_settings := user_settings |}.

(** The property [Settings.user_settings]: returns the mapping and the
    instance after the assignment to [self._user_settings].  The instance
    keeps the dict object it was given, here by its content (see the
    note on [DjangoSettings]; [ConfRef.user_settings] keeps the
    reference). *)
Definition user_settings (django_settings : DjangoSettings) (self : Settings)
    : gmap string pyval * Settings :=
  match _user_settings self with
  | None =>
      let d := getattr_or (GRAPHENE_DJANGO_FILTER django_settings) ∅ in
      (d, {| _user_settings := Some d |})
  | Some d => (d, self)
  end.

Section Process.

(** What the process saw when the module was imported:
    [FIXED_SETTINGS = get_fixed_settings()] runs once. *)
Variable connection : Connection.
Variable import_time_settings : DjangoSettings.

Definition FIXED_SETTINGS : gmap string pyval :=
  get_fixed_settings connection import_time_settings.

Definition invalid_setting (name : string) : exc :=
  AttributeError ("Invalid Graphene setting: `" +:+ name +:+ "`").

(** [Settings.__getattr__]: the outcome and the instance afterwards.
    [django_settings] is the host configuration at the time of the
    call. *)
Definition __getattr__ (django_settings : DjangoSettings) (self : Settings)
    (name : string) : result pyval * Settings :=
  if negb (dict_contains name FIXED_SETTINGS)
     && negb (dict_contains name DEFAULT_SETTINGS)
  then (Raise (invalid_setting name), self)
  else if dict_contains name FIXED_SETTINGS
  then (dict_getitem FIXED_SETTINGS name, self)
  else
    let '(us, self) := user_settings django_settings self in
    if dict_contains name us
    then
      let '(us, self) := user_settings django_settings self in
      (dict_getitem us name, self)
    else (dict_getitem DEFAULT_SETTINGS name, self).

(** What an attribute read on an instance can give. *)
Inductive attribute_value : Type :=
| SettingValue (v : pyval)
| MappingValue (mapping : gmap string pyval)
| NoneValue.

(** [self.name], the attribute read.  Ordinary lookup comes first: it
    finds the property [user_settings] on the class and the attribute
    [_user_settings] on the instance.  Everything else it can find, on
    the class or on [object], has a name that begins with two
    underscores ([__init__], [__class__], [__dict__], ...); which of
    these names exist and what they hold is left [Unmodelled].  Only for a
    name ordinary lookup does not find does Python call [__getattr__]. *)
Definition getattribute (django_settings : DjangoSettings) (self : Settings)
    (name : string) : result attribute_value * Settings :=
  if bool_decide (name = "user_settings") then
    let '(us, self) := user_settings django_settings self in
    (Return (MappingValue us), self)
  else if bool_decide (name = "_user_settings") then
    (Return (match _user_settings self with
             | Some us => MappingValue us
             | None => NoneValue
             end), self)
  else if double_underscore_name name then (Unmodelled, self)
  else
    match __getattr__ django_settings self name with
    | (Return v, self) => (Return (SettingValue v), self)
    | (Raise e, self) => (Raise e, self)
    | (Unmodelled, self) => (Unmodelled, self)
    end.

End Process.

End Conf.

Module ConfState.
  Import Conf.

(** The module keeps one global, [settings], that refers to an instance.
    Instances live in a store indexed by location; the global holds a
    location. *)
Record State : Type := {
  objects : list Settings;
  settings : nat
}.

(** [Settings(user_settings)]: a new instance at the next free location. *)
Definition new_Settings (objs : list Settings)
    (user_settings : option (gmap string pyval)) : nat * list Settings :=
  (length objs, objs ++ [__init__ user_settings]).

(** Module initialisation: [settings = Settings(None)]. *)
Definition initial : State :=
  let '(l, objs) := new_Settings [] None in
  {| objects := objs; settings := l |}.

(** [reload_settings(setting, value, **kwargs)], the receiver connected
    to [setting_changed]. *)
Definition reload_settings (st : State) (setting : string)
    (value : option (gmap string pyval)) : State :=
  if bool_decide (setting = DJANGO_SETTINGS_KEY) then
    let '(l, objs) := new_Settings (objects st) value in
    {| objects := objs; settings := l |}
  else st.

(** [__getattr__] run on the instance at location [l]: what the read
    [obj.name] does for a name that ordinary lookup does not find, as is
    the case for every fixed key and every default key ([getattribute_at]
    is the read for any name).  [None] only when [l] is not a location of
    the store. *)
Definition getattr_at (connection : Connection)
    (import_time_settings django_settings : DjangoSettings)
    (objs : list Settings) (l : nat) (name : string)
    : option (result pyval * list Settings) :=
  match objs !! l with
  | Some self =>
      let '(r, self') :=
        __getattr__ connection import_time_settings django_settings self name in
      Some (r, <[l := self']> objs)
  | None => None
  end.

(** [conf.settings.name] for a name that ordinary lookup does not find:
    [__getattr__] run on the instance the global refers to ([lookup] is
    the read for any name). *)
Definition get (connection : Connection)
    (import_time_settings django_settings : DjangoSettings)
    (st : State) (name : string) : option (result pyval * State) :=
  match getattr_at connection import_time_settings django_settings
          (objects st) (settings st) name with
  | Some (r, objs) => Some (r, {| objects := objs; settings := settings st |})
  | None => None
  end.

(** [obj.name] for the instance at location [l], any name. *)
Definition getattribute_at (connection : Connection)
    (import_time_settings django_settings : DjangoSettings)
    (objs : list Settings) (l : nat) (name : string)
    : option (result attribute_value * list Settings) :=
  match objs !! l with
  | Some self =>
      let '(r, self') :=
        getattribute connection import_time_settings django_settings self name in
      Some (r, <[l := self']> objs)
  | None => None
  end.

(** [conf.settings.name], any name. *)
Definition lookup (connection : Connection)
    (import_time_settings django_settings : DjangoSettings)
    (st : State) (name : string) : option (result attribute_value * State) :=
  match getattribute_at connection import_time_settings django_settings
          (objects st) (settings st) name with
  | Some (r, objs) => Some (r, {| objects := objs; settings := settings st |})
  | None => None
  end.

(** The handler as section 4.1 of the specification words it: a fresh
    instance seeded from the new value, or from an empty mapping when the
    value is absent.  Only used to compare with [reload_settings]. *)
Definition reload_settings_as_specified (st : State) (setting : string)
    (value : option (gmap string pyval)) : State :=
  if bool_decide (setting = DJANGO_SETTINGS_KEY) then
    let '(l, objs) := new_Settings (objects st) (Some (getattr_or value ∅)) in
    {| objects := objs; settings := l |}
  else st.

End ConfState.

(** ** conf.py over a store of dict objects

The functions of [Conf] once more, with every dict held by reference:
the host attribute and [self._user_settings] are locations in a store of
dict objects, so that a dict shared between the host configuration and an
instance is one object, and a change made to it in place is seen through
every reference. *)

Module ConfRef.

(** [django.conf.settings]: the namespace attribute is not set, or bound
    to the dict object at a location. *)
Record DjangoSettings : Type := {
  GRAPHENE_DJANGO_FILTER : option nat
}.

(** An instance of [class Settings]: [None], or the location of a dict. *)
Record Settings : Type := mkSettings {
  _user_settings : option nat
}.

Definition __init__ (user_settings : option nat) : Settings :=
  {| _user_settings := user_settings |}.

(** The property [Settings.user_settings]: the location returned, the
    instance and the store afterwards.  When the host attribute is not
    set, the default [{}] is a new dict object, and it is the one kept.
    (When the attribute is set the [{}] the call also builds is dropped
    at once; it is not put in the store.) *)
Definition user_settings (dicts : list (gmap string pyval))
    (django_settings : DjangoSettings) (self : Settings)
    : nat * Settings * list (gmap string pyval) :=
  match _user_settings self with
  | None =>
      match GRAPHENE_DJANGO_FILTER django_settings with
      | Some r => (r, {| _user_settings := Some r |}, dicts)
      | None =>
          (length dicts, {| _user_settings := Some (length dicts) |},
           dicts ++ [∅])
      end
  | Some r => (r, self, dicts)
  end.

Section Process.

Variable connection : Conf.Connection.
Variable import_time_settings : Conf.DjangoSettings.

(** [Settings.__getattr__].  A location outside the store is no state of
    the program; the outcome there is [Unmodelled]. *)
Definition __getattr__ (dicts : list (gmap string pyval))
    (django_settings : DjangoSettings) (self : Settings) (name : string)
    : result pyval * Settings * list (gmap string pyval) :=
  let FIXED_SETTINGS := Conf.FIXED_SETTINGS connection import_time_settings in
  if negb (dict_contains name FIXED_SETTINGS)
     && negb (dict_contains name Conf.DEFAULT_SETTINGS)
  then (Raise (Conf.invalid_setting name), self, dicts)
  else if dict_contains name FIXED_SETTINGS
  then (dict_getitem FIXED_SETTINGS name, self, dicts)
  else
    let '(r, self, dicts) := user_settings dicts django_settings self in
    match dicts !! r with
    | None => (Unmodelled, self, dicts)
    | Some us =>
        if dict_contains name us
        then
          let '(r, self, dicts) := user_settings dicts django_settings self in
          match dicts !! r with
          | None => (Unmodelled, self, dicts)
          | Some us => (dict_getitem us name, self, dicts)
          end
        else (dict_getitem Conf.DEFAULT_SETTINGS name, self, dicts)
    end.

(** The ordered lookup of section 4.1 of the specification: the fixed
    value, else the value [mapping] holds, else the static default, and
    the error for a name in neither key set.  Only used to say what a
    read returns. *)
Definition answer (name : string) (mapping : gmap string pyval)
    : result pyval :=
  match Conf.FIXED_SETTINGS connection import_time_settings !! name with
  | Some v => Return v
  | None =>
      match Conf.DEFAULT_SETTINGS !! name with
      | None => Raise (Conf.invalid_setting name)
      | Some d =>
          match mapping !! name with
          | Some u => Return u
          | None => Return d
          end
      end
  end.

End Process.

(** [d[key] = value] on the dict object at location [r]: a change in
    place, as host code can make to a dict it holds. *)
Definition setitem_in_place (dicts : list (gmap string pyval)) (r : nat)
    (key : string) (value : pyval) : list (gmap string pyval) :=
  alter (fun d => <[key := value]> d) r dicts.

(** The content view: each reference replaced by what the dict it refers
    to holds in [dicts]. *)
Definition content_of_host (dicts : list (gmap string pyval))
    (django_settings : DjangoSettings) : Conf.DjangoSettings :=
  {| Conf.GRAPHENE_DJANGO_FILTER_HAS_TRIGRAM_EXTENSION := None;
     Conf.GRAPHENE_DJANGO_FILTER :=
       match GRAPHENE_DJANGO_FILTER django_settings with
       | Some r => dicts !! r
       | None => None
       end |}.

Definition content_of_instance (dicts : list (gmap string pyval))
    (self : Settings) : Conf.Settings :=
  {| Conf._user_settings :=
       match _user_settings self with
       | Some r => dicts !! r
       | None => None
       end |}.

(** Every reference is a location of the store. *)
Definition in_store (dicts : list (gmap string pyval)) (r : option nat)
    : Prop :=
  match r with
  | Some r => r < length dicts
  | None => True
  end.

End ConfRef.

(** ** The part of graphene the declarations rely on

A class body is a namespace of Python objects.  graphene turns it into
the fields of an input object type by keeping the attributes that are
mounted fields, mounting the unmounted types, and dropping everything
else ([get_field_as], [yank_fields_from_attrs]), and then puts the fields
in the order in which their values were created.  In a class statement
that is the order of the namespace; for the dict display of the factory,
where a computed key can repeat an earlier one, the order is worked out
from the entries as written ([display_fields]). *)

Module graphene.

(** Type expressions.  [Class n] is a reference to the declared class
    named [n]; [Thunk n] is [lambda: cls], resolved to that class when
    the schema is built. *)
Inductive Type_ : Type :=
| String
| Boolean
| Float
| Int
| List (of_type : Type_)
| NonNull (of_type : Type_)
| Class (name : string)
| Thunk (name : string).

(** Input values, as they reach an input type. *)
Inductive value : Type :=
| Null
| Str (s : string)
| Bool (b : bool)
| Integer (z : Z)
| Decimal (mantissa exponent : Z)
| EnumValue (member : string)
| ListValue (items : list value)
| ObjectValue (entries : list (string * value)).

(** A mounted input field. *)
Record field : Type := {
  type_ : Type_;
  default_value : option value;
  description : string
}.

(** What a class attribute can be bound to in these modules. *)
Inductive pyobj : Type :=
| Mounted (f : field)
| Unmounted (t : Type_) (required : bool) (default_value : option value)
            (description : string)
| Tuple (items : list pyobj)
| Text (s : string).

(** The field [InputField.__init__] builds: a required field has the
    type [NonNull(type_)]. *)
Definition mount (t : Type_) (required : bool)
    (default_value : option value) (description : string) : field :=
  {| type_ := if required then NonNull t else t;
     default_value := default_value;
     description := description |}.

(** [graphene.InputField(type_, required=..., default_value=...,
    description=...)] *)
Definition InputField (t : Type_) (required : bool)
    (default_value : option value) (description : string) : pyobj :=
  Mounted (mount t required default_value description).

(** [graphene.String(...)], [graphene.Boolean(...)], ... bound to a class
    attribute: an unmounted type that remembers its arguments. *)
Definition Scalar (t : Type_) (required : bool)
    (default_value : option value) (description : string) : pyobj :=
  Unmounted t required default_value description.

(** A mounted field is kept, an unmounted type is mounted as an input
    field with its arguments, anything else is not a field. *)
Definition get_field_as (o : pyobj) : option field :=
  match o with
  | Mounted f => Some f
  | Unmounted t required dv descr => Some (mount t required dv descr)
  | Tuple _ => None
  | Text _ => None
  end.

(** The fields of a namespace whose values were created in namespace
    order, as in a class statement: sorting by creation leaves them in
    place. *)
Fixpoint yank_fields_from_attrs (attrs : list (pyval * pyobj))
    : list (pyval * field) :=
  match attrs with
  | [] => []
  | (attname, v) :: rest =>
      match get_field_as v with
      | Some f => (attname, f) :: yank_fields_from_attrs rest
      | None => yank_fields_from_attrs rest
      end
  end.

(** [d[k] = v] on an insertion-ordered dict. *)
Fixpoint dict_setitem {V} (k : pyval) (v : V) (d : list (pyval * V))
    : list (pyval * V) :=
  match d with
  | [] => [(k, v)]
  | (k', v') :: d' =>
      if decide (k' = k) then (k', v) :: d'
      else (k', v') :: dict_setitem k v d'
  end.

(** The dict display [{k1: v1, k2: v2, ...}]: entries are stored left to
    right, a repeated key keeps its place and takes the later value. *)
Definition dict_display {V} (items : list (pyval * V)) : list (pyval * V) :=
  foldl (fun d kv => dict_setitem kv.1 kv.2 d) [] items.

Fixpoint dict_get {V} (d : list (pyval * V)) (k : pyval) : option V :=
  match d with
  | [] => None
  | (k', v) :: d' => if decide (k' = k) then Some v else dict_get d' k
  end.

(** What an input object class is made of: its name and its fields.  This
    is the description of a class, not the class object: two classes
    built from equal namespaces are different objects with equal
    descriptions. *)
Record InputObjectType : Type := {
  __name__ : string;
  fields : list (pyval * field)
}.

(** The class statement [class name(graphene.InputObjectType): ...] of
    this module: attribute names are identifiers, the docstring is a
    string, and the values are created in the order written, so creating
    the class goes through and the fields come in namespace order. *)
Definition new_InputObjectType (name : string)
    (namespace : list (pyval * pyobj)) : InputObjectType :=
  {| __name__ := name; fields := yank_fields_from_attrs namespace |}.

(** Creation counters: the values of a class body or of a dict display
    are created in the order written. *)
Fixpoint counted_from (counter : nat) (written : list (pyval * pyobj))
    : list (pyval * (nat * pyobj)) :=
  match written with
  | [] => []
  | kv :: rest => (kv.1, (counter, kv.2)) :: counted_from (S counter) rest
  end.

Definition creation_order (written : list (pyval * pyobj))
    : list (pyval * (nat * pyobj)) :=
  counted_from 0 written.

Fixpoint yank_counted (attrs : list (pyval * (nat * pyobj)))
    : list (nat * (pyval * field)) :=
  match attrs with
  | [] => []
  | (attname, (counter, v)) :: rest =>
      match get_field_as v with
      | Some f => (counter, (attname, f)) :: yank_counted rest
      | None => yank_counted rest
      end
  end.

Fixpoint insert_by_counter {A} (x : nat * A) (l : list (nat * A))
    : list (nat * A) :=
  match l with
  | [] => [x]
  | y :: l' =>
      if x.1 <=? y.1 then x :: l else y :: insert_by_counter x l'
  end.

(** [sorted(..., key=creation counter)] *)
Definition sort_by_counter {A} (l : list (nat * A)) : list (nat * A) :=
  foldr insert_by_counter [] l.

(** The fields graphene collects from the namespace that the dict display
    [{k1: v1, ...}] with the entries [written] makes: a repeated key is
    one attribute with the later value, and the fields are ordered by the
    creation of their values. *)
Definition display_fields (written : list (pyval * pyobj))
    : list (pyval * field) :=
  map snd (sort_by_counter (yank_counted (dict_display (creation_order written)))).

(** The class that [type(name, bases, {k1: v1, ...})] returns when it
    returns. *)
Definition created (name : string) (written : list (pyval * pyobj))
    : InputObjectType :=
  {| __name__ := name; fields := display_fields written |}.

(** What binding [k] to [o] in the namespace does to the creation of the
    class.  graphene takes the attribute [Meta] for the options of the
    class and raises when it is neither a class nor a dict; it takes
    [__doc__] for the docstring and raises when it is a field.  A name
    other than these that begins with an underscore, or a key that is not
    a string, may reach the class machinery of the interpreter
    ([__slots__], [__qualname__], ...): these are left [Unmodelled].  Any
    other name is an attribute like any other. *)
Definition binding_outcome (k : pyval) (o : pyobj) : result unit :=
  match k with
  | PStr s =>
      if bool_decide (s = "Meta") then
        match o with
        | Mounted _ | Unmounted _ _ _ _ => Raise ClassCreationError
        | Tuple _ | Text _ => Unmodelled
        end
      else if bool_decide (s = "__doc__") then
        match o with
        | Text _ => Return tt
        | Mounted _ | Unmounted _ _ _ _ => Raise ClassCreationError
        | Tuple _ => Unmodelled
        end
      else if underscore_name s then Unmodelled
      else Return tt
  | PBool _ => Unmodelled
  end.

(** Keys that are attributes like any other when bound to a field:
    strings other than [Meta] that do not begin with an underscore. *)
Definition plain_key (k : pyval) : bool :=
  match k with
  | PStr s => negb (bool_decide (s = "Meta")) && negb (underscore_name s)
  | PBool _ => false
  end.

Definition raises {A} (r : result A) : bool :=
  match r with Raise _ => true | _ => false end.

Definition returns {A} (r : result A) : bool :=
  match r with Return _ => true | _ => false end.

(** [type(name, (graphene.InputObjectType,), {k1: v1, ...})], given the
    entries of the dict display as written.  One binding that makes the
    creation raise is enough for it to raise, whatever else the namespace
    holds. *)
Definition type_new (name : string) (written : list (pyval * pyobj))
    : result InputObjectType :=
  let namespace := dict_display written in
  if existsb (fun kv => raises (binding_outcome kv.1 kv.2)) namespace
  then Raise ClassCreationError
  else if forallb (fun kv => returns (binding_outcome kv.1 kv.2)) namespace
  then Return (created name written)
  else Unmodelled.

Definition field_names (c : InputObjectType) : list pyval :=
  map fst (fields c).

Definition get_field (c : InputObjectType) (name : pyval) : option field :=
  dict_get (fields c) name.

Record Enum : Type := {
  enum_name : string;
  members : list (string * string)
}.

Inductive declaration : Type :=
| DeclareEnum (e : Enum)
| DeclareInput (c : InputObjectType).

Definition declared_name (d : declaration) : string :=
  match d with
  | DeclareEnum e => enum_name e
  | DeclareInput c => __name__ c
  end.

Fixpoint resolve (schema : list declaration) (name : string)
    : option declaration :=
  match schema with
  | [] => None
  | d :: rest =>
      if decide (declared_name d = name) then Some d else resolve rest name
  end.

Definition is_null (v : value) : bool :=
  match v with Null => true | _ => false end.

Definition needs_value (f : field) : bool :=
  match type_ f, default_value f with
  | NonNull _, None => true
  | _, _ => false
  end.

(** Conformance of an input value to a type, as input coercion decides
    it: scalars by kind (an [Int] within 32 bits, a [Float] also from an
    integer), [NonNull] refuses null, a list by its items, a value that
    is not a list taken as the list of that one item, an enum by its
    member names, an input object by its entries (each names a declared
    field and conforms to the field's type, no name twice, and every
    field that needs a value has one). *)
Fixpoint conforms (schema : list declaration) (v : value) {struct v}
    : Type_ -> bool :=
  fix at_type (t : Type_) : bool :=
    match t with
    | NonNull t' => negb (is_null v) && at_type t'
    | String => match v with Null | Str _ => true | _ => false end
    | Boolean => match v with Null | Bool _ => true | _ => false end
    | Int =>
        match v with
        | Null => true
        | Integer z =>
            bool_decide (-2147483648 ≤ z)%Z && bool_decide (z ≤ 2147483647)%Z
        | _ => false
        end
    | Float =>
        match v with Null | Integer _ | Decimal _ _ => true | _ => false end
    | List t' =>
        match v with
        | Null => true
        | ListValue items => forallb (fun v' => conforms schema v' t') items
        | _ => at_type t'
        end
    | Class n | Thunk n =>
        match resolve schema n with
        | Some (DeclareEnum e) =>
            match v with
            | Null => true
            | EnumValue m => bool_decide (m ∈ map fst (members e))
            | _ => false
            end
        | Some (DeclareInput c) =>
            match v with
            | Null => true
            | ObjectValue entries =>
                bool_decide (NoDup (map fst entries))
                && forallb
                     (fun kv =>
                        match get_field c (PStr kv.1) with
                        | Some f => conforms schema kv.2 (type_ f)
                        | None => false
                        end) entries
                && forallb
                     (fun nf =>
                        negb (needs_value nf.2)
                        || bool_decide (nf.1 ∈ map (fun kv => PStr kv.1) entries))
                     (fields c)
            | _ => false
            end
        | None => false
        end
    end.

End graphene.

(** ** input_types.py *)

Module InputTypes.
  Import Conf.

Definition SearchConfigInputType : graphene.InputObjectType :=
  graphene.new_InputObjectType "SearchConfigInputType"
    [ (PStr "__doc__",
       graphene.Text "Input type for the `SearchVector` or `SearchQuery` object config.");
      (PStr "value",
       graphene.Scalar graphene.String false None
         "`SearchVector` or `SearchQuery` object config value");
      (PStr "is_field",
       graphene.Scalar graphene.Boolean false (Some (graphene.Bool false))
         "Whether to wrap the value with the F object") ].

Definition SearchVectorWeight : graphene.Enum :=
  {| graphene.enum_name := "SearchVectorWeight";
     graphene.members := [("A", "A"); ("B", "B"); ("C", "C"); ("D", "D")] |}.

(** The binding of [config] ends in a comma in the source: the attribute
    is a one-element tuple holding the input field. *)
Definition SearchVectorInputType : graphene.InputObjectType :=
  graphene.new_InputObjectType "SearchVectorInputType"
    [ (PStr "__doc__",
       graphene.Text "Input type for creating the `SearchVector` object.");
      (PStr "fields",
       graphene.InputField
         (graphene.List (graphene.NonNull graphene.String)) true None
         "Field names of vector");
      (PStr "config",
       graphene.Tuple
         [graphene.InputField (graphene.Class "SearchConfigInputType")
            false None "Vector config"]);
      (PStr "weight",
       graphene.InputField (graphene.Class "SearchVectorWeight")
         false None "Vector weight") ].

Definition SearchQueryType : graphene.Enum :=
  {| graphene.enum_name := "SearchQueryType";
     graphene.members :=
       [("PLAIN", "plain"); ("PHRASE", "phrase"); ("RAW", "raw");
        ("WEBSEARCH", "websearch")] |}.

(** The entries of the dict display handed to [type(...)] by the factory,
    as written, once its three computed keys are known.  The lambdas
    refer to the class being created, which is named
    [SearchQueryInputType]. *)
Definition search_query_entries (and_key or_key not_key : pyval)
    : list (pyval * graphene.pyobj) :=
  [ (PStr "__doc__",
     graphene.Text "Input type for creating the `SearchQuery` object.");
    (PStr "value",
     graphene.Scalar graphene.String true None "Query value");
    (PStr "config",
     graphene.InputField (graphene.Class "SearchConfigInputType")
       false None "Query config");
    (and_key,
     graphene.InputField
       (graphene.List (graphene.Thunk "SearchQueryInputType"))
       false None "`And` field");
    (or_key,
     graphene.InputField
       (graphene.List (graphene.Thunk "SearchQueryInputType"))
       false None "`Or` field");
    (not_key,
     graphene.InputField
       (graphene.List (graphene.Thunk "SearchQueryInputType"))
       false None "`Not` field") ].

(** [create_search_query_input_type()].  The state is the instance the
    module's name [settings] is bound to; the three keys are read in the
    order of the dict display, then [type(...)] is called. *)
Definition create_search_query_input_type (connection : Connection)
    (import_time_settings django_settings : DjangoSettings)
    : run Settings graphene.InputObjectType :=
  let getattr_settings name : run Settings pyval :=
    fun settings =>
      __getattr__ connection import_time_settings django_settings settings name in
  let* and_key := getattr_settings "AND_KEY" in
  let* or_key := getattr_settings "OR_KEY" in
  let* not_key := getattr_settings "NOT_KEY" in
  pure_call (graphene.type_new "SearchQueryInputType"
               (search_query_entries and_key or_key not_key)).

Definition SearchQueryFilterInputType : graphene.InputObjectType :=
  graphene.new_InputObjectType "SearchQueryFilterInputType"
    [ (PStr "__doc__",
       graphene.Text
         "Input type for the full text search using the `SearchVector` and `SearchQuery` object.");
      (PStr "vector",
       graphene.InputField (graphene.Class "SearchVectorInputType")
         true None "Search vector");
      (PStr "query",
       graphene.InputField (graphene.Class "SearchQueryInputType")
         true None "Search query") ].

Definition FloatLookups : graphene.InputObjectType :=
  graphene.new_InputObjectType "FloatLookups"
    [ (PStr "__doc__", graphene.Text "Input type for float lookups.");
      (PStr "exact", graphene.Scalar graphene.Float false None "Is exact");
      (PStr "gt", graphene.Scalar graphene.Float false None "Is greater than");
      (PStr "gte",
       graphene.Scalar graphene.Float false None "Is greater than or equal to");
      (PStr "lt", graphene.Scalar graphene.Float false None "Is less than");
      (PStr "lte",
       graphene.Scalar graphene.Float false None "Is less than or equal to") ].

(** The binding of [weights] ends in a comma in the source: the
    attribute is a one-element tuple holding the input field. *)
Definition SearchRankFilterInputType : graphene.InputObjectType :=
  graphene.new_InputObjectType "SearchRankFilterInputType"
    [ (PStr "__doc__",
       graphene.Text
         "Input type for the full text search using the `SearchRank` object.");
      (PStr "vector",
       graphene.InputField (graphene.Class "SearchVectorInputType")
         true None "Search vector");
      (PStr "query",
       graphene.InputField (graphene.Class "SearchQueryInputType")
         true None "Search query");
      (PStr "lookups",
       graphene.InputField (graphene.Class "FloatLookups")
         true None "Available lookups");
      (PStr "weights",
       graphene.Tuple
         [graphene.InputField (graphene.List graphene.Float)
            false None "Search rank weights"]);
      (PStr "cover_density",
       graphene.Scalar graphene.Boolean false None
         "Whether to include coverage density ranking");
      (PStr "normalization",
       graphene.Scalar graphene.Int false None "Search rank normalization") ].

Definition TrigramSearchKind : graphene.Enum :=
  {| graphene.enum_name := "TrigramSearchKind";
     graphene.members :=
       [("SIMILARITY", "similarity"); ("DISTANCE", "distance")] |}.

Definition TrigramFilterInputType : graphene.InputObjectType :=
  graphene.new_InputObjectType "TrigramFilterInputType"
    [ (PStr "__doc__",
       graphene.Text
         "Input type for the full text search using similarity or distance of trigram.");
      (PStr "kind",
       graphene.InputField (graphene.Class "TrigramSearchKind") false
         (Some (graphene.EnumValue "SIMILARITY"))
         "Type of the search using trigrams");
      (PStr "lookups",
       graphene.InputField (graphene.Class "FloatLookups")
         true None "Available lookups");
      (PStr "value",
       graphene.Scalar graphene.String true None "Search value") ].

(** Everything the module declares, with [SearchQueryInputType] bound to
    what the factory returned when the module was loaded. *)
Definition declarations (SearchQueryInputType : graphene.InputObjectType)
    : list graphene.declaration :=
  [ graphene.DeclareInput SearchConfigInputType;
    graphene.DeclareEnum SearchVectorWeight;
    graphene.DeclareInput SearchVectorInputType;
    graphene.DeclareEnum SearchQueryType;
    graphene.DeclareInput SearchQueryInputType;
    graphene.DeclareInput SearchQueryFilterInputType;
    graphene.DeclareInput FloatLookups;
    graphene.DeclareInput SearchRankFilterInputType;
    graphene.DeclareEnum TrigramSearchKind;
    graphene.DeclareInput TrigramFilterInputType ].

End InputTypes.

(** ** Concrete inputs and input values used in the statements below *)

Module Samples.
  Import Conf.

Definition postgres : Connection := {| vendor := "postgresql" |}.

Definition no_overrides : DjangoSettings :=
  {| GRAPHENE_DJANGO_FILTER_HAS_TRIGRAM_EXTENSION := None;
     GRAPHENE_DJANGO_FILTER := None |}.

Definition all_of_overrides : DjangoSettings :=
  {| GRAPHENE_DJANGO_FILTER_HAS_TRIGRAM_EXTENSION := Some (PBool true);
     GRAPHENE_DJANGO_FILTER :=
       Some (<["IS_POSTGRESQL" := PBool false]>
               (<["AND_KEY" := PStr "all_of"]> ∅)) |}.

(** A host configuration that names the [And] field [Meta]. *)
Definition and_key_named_Meta : DjangoSettings :=
  {| GRAPHENE_DJANGO_FILTER_HAS_TRIGRAM_EXTENSION := None;
     GRAPHENE_DJANGO_FILTER := Some (<["AND_KEY" := PStr "Meta"]> ∅) |}.

(** A host configuration that names the [And] field [value]. *)
Definition and_key_named_value : DjangoSettings :=
  {| GRAPHENE_DJANGO_FILTER_HAS_TRIGRAM_EXTENSION := None;
     GRAPHENE_DJANGO_FILTER := Some (<["AND_KEY" := PStr "value"]> ∅) |}.


(** The declarations of a process that loaded the module with no user
    overrides: the factory saw the default keys. *)
Definition default_declarations : list graphene.declaration :=
  InputTypes.declarations
    (graphene.created "SearchQueryInputType"
       (InputTypes.search_query_entries
          (PStr "and") (PStr "or") (PStr "not"))).

(** [{fields: ["title"], config: {value: "english"}}] *)
Definition vector_with_config : graphene.value :=
  graphene.ObjectValue
    [("fields", graphene.ListValue [graphene.Str "title"]);
     ("config", graphene.ObjectValue [("value", graphene.Str "english")])].

(** [{fields: ["title"], weight: A}] *)
Definition vector_with_weight : graphene.value :=
  graphene.ObjectValue
    [("fields", graphene.ListValue [graphene.Str "title"]);
     ("weight", graphene.EnumValue "A")].

(** [{vector: {fields: ["title"]}, query: {value: "x"},
     lookups: {gt: 0.5}}], with further entries appended. *)
Definition rank_filter (more : list (string * graphene.value))
    : graphene.value :=
  graphene.ObjectValue
    ([("vector",
       graphene.ObjectValue
         [("fields", graphene.ListValue [graphene.Str "title"])]);
      ("query", graphene.ObjectValue [("value", graphene.Str "x")]);
      ("lookups", graphene.ObjectValue [("gt", graphene.Decimal 5 (-1))])]
     ++ more).

(** [weights: [0.1, 0.2]] *)
Definition weights_entry : string * graphene.value :=
  ("weights",
   graphene.ListValue [graphene.Decimal 1 (-1); graphene.Decimal 2 (-1)]).

(** [{lookups: {gt: 0.5}, value: "x"}], with further entries appended. *)
Definition trigram_filter (more : list (string * graphene.value))
    : graphene.value :=
  graphene.ObjectValue
    ([("lookups", graphene.ObjectValue [("gt", graphene.Decimal 5 (-1))]);
      ("value", graphene.Str "x")] ++ more).

End Samples.

(** ** Runs of the loaded module *)

Module Runs.
Import Conf ConfState.

(** What can happen to [conf] once it is loaded: the host sends
    [setting_changed], which calls the connected receiver
    [reload_settings(setting, value)], or some code reads
    [conf.settings.name] while the host configuration is
    [django_settings]. *)
Inductive event : Type :=
| Notify (setting : string) (value : option (gmap string pyval))
| Lookup (django_settings : DjangoSettings) (name : string).

(** One event.  A read that raises leaves the module as the read left it. *)
Definition step (connection : Connection)
    (import_time_settings : DjangoSettings) (st : State) (e : event) : State :=
  match e with
  | Notify setting value => reload_settings st setting value
  | Lookup django_settings name =>
      match lookup connection import_time_settings django_settings st name with
      | Some (_, st') => st'
      | None => st
      end
  end.

Definition run_events (connection : Connection)
    (import_time_settings : DjangoSettings) (st : State)
    (events : list event) : State :=
  foldl (step connection import_time_settings) st events.

(** Signals only, delivered in order. *)
Definition deliver (st : State)
    (signals : list (string * option (gmap string pyval))) : State :=
  foldl (fun st kv => reload_settings st kv.1 kv.2) st signals.

(** The value of the last signal sent for the library's key, if any. *)
Definition last_namespace_value
    (signals : list (string * option (gmap string pyval)))
    : option (option (gmap string pyval)) :=
  foldl (fun acc kv =>
           if bool_decide (kv.1 = DJANGO_SETTINGS_KEY) then Some kv.2 else acc)
    None signals.

(** The instance after reading [self.name] for each name in turn. *)
Definition read_all (connection : Connection)
    (import_time_settings django_settings : DjangoSettings)
    (self : Settings) (names : list string) : Settings :=
  foldl (fun self name =>
           (__getattr__ connection import_time_settings django_settings
              self name).2)
    self names.

(** The global holds a location of the store. *)
Definition refers_to_instance (st : State) : Prop :=
  settings st < length (objects st).

End Runs.

(** ** Checks on a set of declarations *)

Module Schema.
Import graphene.

(** The class a type expression ends in, under its list and non-null
    wrappers. *)
Fixpoint named_type (t : Type_) : option string :=
  match t with
  | List t' | NonNull t' => named_type t'
  | Class n | Thunk n => Some n
  | String | Boolean | Float | Int => None
  end.

Definition resolves (schema : list declaration) (t : Type_) : bool :=
  match named_type t with
  | Some n => match resolve schema n with Some _ => true | None => false end
  | None => true
  end.

(** Every field of every declared input type ends in a scalar or in a
    declared class. *)
Definition closed (schema : list declaration) : bool :=
  forallb
    (fun d =>
       match d with
       | DeclareEnum _ => true
       | DeclareInput c =>
           forallb (fun nf => resolves schema (type_ nf.2)) (fields c)
       end) schema.

(** Some field of some declared input type ends in the class [n]. *)
Definition mentioned (schema : list declaration) (n : string) : bool :=
  existsb
    (fun d =>
       match d with
       | DeclareEnum _ => false
       | DeclareInput c =>
           existsb (fun nf => bool_decide (named_type (type_ nf.2) = Some n))
             (fields c)
       end) schema.

End Schema.

(** * Properties of the settings resolver *)

Module ConfFacts.
  Import Conf ConfState Samples.

Section Resolver.

Variable connection : Connection.
Variable import_time_settings : DjangoSettings.

Local Abbreviation FIXED := (FIXED_SETTINGS connection import_time_settings).
Local Abbreviation getattr := (__getattr__ connection import_time_settings).

Lemma fixed_lookup (name : string) :
  FIXED !! name =
    if decide ("HAS_TRIGRAM_EXTENSION" = name) then
      Some (getattr_or
              (GRAPHENE_DJANGO_FILTER_HAS_TRIGRAM_EXTENSION import_time_settings)
              (PBool false))
    else if decide ("IS_POSTGRESQL" = name) then
      Some (PBool (bool_decide (vendor connection = "postgresql")))
    else None.
Proof.
  unfold FIXED_SETTINGS, get_fixed_settings.
  rewrite lookup_insert. case_decide; [done|].
  rewrite lookup_insert. case_decide; [done|].
  apply lookup_empty.
Qed.

Lemma default_lookup (name : string) :
  DEFAULT_SETTINGS !! name =
    if decide ("NOT_KEY" = name) then Some (PStr "not")
    else if decide ("OR_KEY" = name) then Some (PStr "or")
    else if decide ("AND_KEY" = name) then Some (PStr "and")
    else if decide ("FILTER_KEY" = name) then Some (PStr "filter")
    else None.
Proof.
  unfold DEFAULT_SETTINGS.
  repeat (rewrite lookup_insert; case_decide; [done|]).
  apply lookup_empty.
Qed.

(** The two key sets are disjoint. *)
Lemma default_not_fixed (name : string) (d : pyval) :
  DEFAULT_SETTINGS !! name = Some d → FIXED !! name = None.
Proof.
  rewrite default_lookup, fixed_lookup.
  repeat case_decide; subst; try done.
Qed.

(** Reading the property a second time finds the cached mapping. *)
Lemma user_settings_cached (dj dj' : DjangoSettings) (self : Settings) :
  user_settings dj' (user_settings dj self).2 = user_settings dj self.
Proof.
  unfold user_settings. destruct self as [[m|]]; simpl; reflexivity.
Qed.

(** [__getattr__] is an ordered lookup: fixed, then user, then default. *)
Lemma getattr_cases (dj : DjangoSettings) (self : Settings) (name : string) :
  getattr dj self name =
    match FIXED !! name with
    | Some v => (Return v, self)
    | None =>
        match DEFAULT_SETTINGS !! name with
        | None => (Raise (invalid_setting name), self)
        | Some d =>
            (match (user_settings dj self).1 !! name with
             | Some u => Return u
             | None => Return d
             end, (user_settings dj self).2)
        end
    end.
Proof.
  unfold __getattr__, dict_contains, dict_getitem.
  destruct (FIXED !! name) as [v|] eqn:Hf; simpl.
  { destruct (DEFAULT_SETTINGS !! name); reflexivity. }
  destruct (DEFAULT_SETTINGS !! name) as [d|] eqn:Hd; simpl; [|reflexivity].
  destruct (user_settings dj self) as [us self'] eqn:Hus; simpl.
  destruct (us !! name) as [u|] eqn:Hu; [|reflexivity].
  assert (Hagain : user_settings dj self' = (us, self')).
  { pose proof (user_settings_cached dj dj self) as H.
    rewrite Hus in H. exact H. }
  rewrite Hagain, Hu. reflexivity.
Qed.

(** C1. [__getattr__] returns the fixed value for a fixed key; for a
    key that is not fixed but is a default key it returns the value the
    active user mapping holds for it, and the static default when the
    mapping has none.  So a user value replaces a default and never a
    fixed value: the first case puts no condition on the mapping. *)
Theorem getattr_fixed_then_user_then_default
    (dj : DjangoSettings) (self : Settings) (name : string) :
  (∀ v, FIXED !! name = Some v → (getattr dj self name).1 = Return v)
  ∧ (∀ d u, FIXED !! name = None → DEFAULT_SETTINGS !! name = Some d →
       (user_settings dj self).1 !! name = Some u →
       (getattr dj self name).1 = Return u)
  ∧ (∀ d, FIXED !! name = None → DEFAULT_SETTINGS !! name = Some d →
       (user_settings dj self).1 !! name = None →
       (getattr dj self name).1 = Return d).
Proof.
  rewrite getattr_cases.
  split; [|split].
  - intros v ->. reflexivity.
  - intros d u -> -> ->. reflexivity.
  - intros d -> -> ->. reflexivity.
Qed.

(** For a name ordinary lookup does not find, the attribute read is the
    call of [__getattr__]. *)
Lemma getattribute_not_found
    (dj : DjangoSettings) (self : Settings) (name : string) :
  name ≠ "user_settings" → name ≠ "_user_settings" →
  double_underscore_name name = false →
  getattribute connection import_time_settings dj self name =
    match getattr dj self name with
    | (Return v, self) => (Return (SettingValue v), self)
    | (Raise e, self) => (Raise e, self)
    | (Unmodelled, self) => (Unmodelled, self)
    end.
Proof.
  intros Hus Hslot Hdunder. unfold getattribute.
  rewrite bool_decide_eq_false_2 by exact Hus.
  rewrite bool_decide_eq_false_2 by exact Hslot.
  rewrite Hdunder. reflexivity.
Qed.

(** C8, as the code has it.  For a name that is neither a fixed key nor a
    default key, [__getattr__] raises [AttributeError] with the name in
    the message, whatever the instance and the host configuration hold,
    and leaves the instance as it was.  The attribute read [self.name]
    raises that error when ordinary lookup does not find the name: when
    it is not [user_settings], not [_user_settings], and does not begin
    with two underscores.  The read on an instance of the store passes
    the error on. *)
Theorem getattr_unknown_raises
    (dj : DjangoSettings) (self : Settings) (name : string) :
  FIXED !! name = None → DEFAULT_SETTINGS !! name = None →
  getattr dj self name =
    (Raise (AttributeError ("Invalid Graphene setting: `" +:+ name +:+ "`")),
     self)
  ∧ (name ≠ "user_settings" → name ≠ "_user_settings" →
     double_underscore_name name = false →
     getattribute connection import_time_settings dj self name =
       (Raise (AttributeError
                 ("Invalid Graphene setting: `" +:+ name +:+ "`")),
        self)
     ∧ ∀ objs l, objs !! l = Some self →
         getattribute_at connection import_time_settings dj objs l name
         = Some (Raise (AttributeError
                          ("Invalid Graphene setting: `" +:+ name +:+ "`")),
                 objs)).
Proof.
  intros Hf Hd.
  assert (Hg : getattr dj self name = (Raise (invalid_setting name), self)).
  { rewrite getattr_cases, Hf, Hd. reflexivity. }
  split; [exact Hg|].
  intros Hus Hslot Hdunder.
  assert (Hread : getattribute connection import_time_settings dj self name
                  = (Raise (invalid_setting name), self)).
  { rewrite (getattribute_not_found dj self name Hus Hslot Hdunder), Hg.
    reflexivity. }
  split; [exact Hread|].
  intros objs l Hl. unfold getattribute_at. rewrite Hl, Hread.
  rewrite list_insert_id by exact Hl. reflexivity.
Qed.

End Resolver.

Lemma getattr_fixed_then_user_then_default_witness :
  (__getattr__ postgres no_overrides all_of_overrides
     (__init__ None) "IS_POSTGRESQL").1 = Return (PBool true)
  ∧ (__getattr__ postgres no_overrides all_of_overrides
       (__init__ None) "AND_KEY").1 = Return (PStr "all_of")
  ∧ (__getattr__ postgres no_overrides all_of_overrides
       (__init__ None) "OR_KEY").1 = Return (PStr "or").
Proof.
  split; [|split].
  - apply (proj1 (getattr_fixed_then_user_then_default
                    postgres no_overrides all_of_overrides
                    (__init__ None) "IS_POSTGRESQL")).
    vm_compute. reflexivity.
  - apply (proj1 (proj2 (getattr_fixed_then_user_then_default
                           postgres no_overrides all_of_overrides
                           (__init__ None) "AND_KEY")) (PStr "and"));
      vm_compute; reflexivity.
  - apply (proj2 (proj2 (getattr_fixed_then_user_then_default
                           postgres no_overrides all_of_overrides
                           (__init__ None) "OR_KEY")));
      vm_compute; reflexivity.
Defined.

Lemma getattr_unknown_raises_witness :
  getattribute postgres no_overrides no_overrides
    (__init__ (Some (<["FILTER_KEYS" := PStr "where"]> ∅))) "FILTER_KEYS"
  = (Raise (AttributeError "Invalid Graphene setting: `FILTER_KEYS`"),
     __init__ (Some (<["FILTER_KEYS" := PStr "where"]> ∅))).
Proof.
  destruct (getattr_unknown_raises postgres no_overrides no_overrides
              (__init__ (Some (<["FILTER_KEYS" := PStr "where"]> ∅)))
              "FILTER_KEYS") as [_ Hread];
    [vm_compute; reflexivity ..|].
  destruct Hread as [Hread _];
    [discriminate | discriminate | vm_compute; reflexivity |].
  exact Hread.
Defined.

(** C8 as the specification words it does not hold: [user_settings] is in
    neither key set, and reading it gives the user mapping. *)
Lemma getattribute_user_settings_does_not_raise :
  ¬ (∀ connection import_time_settings dj self name,
       FIXED_SETTINGS connection import_time_settings !! name = None →
       DEFAULT_SETTINGS !! name = None →
       ∃ msg,
         (getattribute connection import_time_settings dj self name).1
         = Raise (AttributeError msg)).
Proof.
  intros H.
  destruct (H postgres no_overrides all_of_overrides (__init__ None)
              "user_settings") as [msg Hmsg];
    [vm_compute; reflexivity ..|].
  vm_compute in Hmsg. discriminate Hmsg.
Qed.

(** The reads that ordinary lookup answers, evaluated. *)
Example getattribute_user_settings_evaluated :
  (getattribute postgres no_overrides no_overrides
     (__init__ (Some (<["AND_KEY" := PStr "all_of"]> ∅))) "user_settings").1
  = Return (MappingValue (<["AND_KEY" := PStr "all_of"]> ∅))
  ∧ (getattribute postgres no_overrides no_overrides
       (__init__ None) "_user_settings").1
    = Return NoneValue.
Proof. split; reflexivity. Qed.

(** ** The notification handler *)

Lemma lookup_new_location (objs : list Settings) (o : Settings) :
  (objs ++ [o]) !! length objs = Some o.
Proof.
  rewrite lookup_app_r by lia. rewrite Nat.sub_diag. reflexivity.
Qed.

Lemma lookup_new_dict (dicts : list (gmap string pyval))
    (d : gmap string pyval) :
  (dicts ++ [d]) !! length dicts = Some d.
Proof.
  rewrite lookup_app_r by lia. rewrite Nat.sub_diag. reflexivity.
Qed.

(** C6, as the code has it.  A notification for the namespace key binds
    the global to a new instance at a location the store did not have,
    built from the notification's value as it is, and leaves every
    earlier instance alone.  A lookup of a default key then answers from
    the notification's mapping when there is one; when the value is
    [None] the new instance holds no mapping and answers from the host's
    namespace attribute, read at that lookup (an empty mapping only when
    the host has none). *)
Theorem reload_settings_namespace_key
    (st : State) (value : option (gmap string pyval)) :
  let st' := reload_settings st DJANGO_SETTINGS_KEY value in
  settings st' = length (objects st)
  ∧ objects st !! settings st' = None
  ∧ objects st' = objects st ++ [__init__ value]
  ∧ (∀ l o, objects st !! l = Some o → objects st' !! l = Some o)
  ∧ (∀ connection import_time_settings dj name d,
       DEFAULT_SETTINGS !! name = Some d →
       fst <$> get connection import_time_settings dj st' name =
         Some (match (match value with
                      | Some mapping => mapping
                      | None => getattr_or (GRAPHENE_DJANGO_FILTER dj) ∅
                      end) !! name with
               | Some u => Return u
               | None => Return d
               end)).
Proof.
  unfold reload_settings, new_Settings. simpl.
  split; [reflexivity|].
  split; [apply lookup_ge_None_2; lia|].
  split; [reflexivity|].
  split; [intros l o Hl; apply lookup_app_l_Some; exact Hl|].
  intros connection import_time_settings dj name d Hd.
  unfold get, getattr_at. simpl.
  rewrite lookup_new_location, getattr_cases.
  rewrite (default_not_fixed _ _ name d Hd), Hd.
  destruct value as [mapping|]; reflexivity.
Qed.

Lemma reload_settings_namespace_key_witness :
  fst <$> get postgres no_overrides no_overrides
            (reload_settings initial DJANGO_SETTINGS_KEY
               (Some (<["AND_KEY" := PStr "all_of"]> ∅))) "AND_KEY"
  = Some (Return (PStr "all_of")).
Proof.
  pose proof (reload_settings_namespace_key initial
                (Some (<["AND_KEY" := PStr "all_of"]> ∅))) as H.
  simpl in H. destruct H as (_ & _ & _ & _ & H).
  apply (H postgres no_overrides no_overrides "AND_KEY" (PStr "and")).
  vm_compute; reflexivity.
Defined.

(** C6 as the specification words it does not hold: after a notification
    that carries [None], the new instance answers from the host
    configuration, not from an empty mapping. *)
Lemma reload_settings_none_is_not_empty_mapping :
  ¬ (∀ connection import_time_settings dj st value name,
       fst <$> get connection import_time_settings dj
                 (reload_settings st DJANGO_SETTINGS_KEY value) name
       = fst <$> get connection import_time_settings dj
                   (reload_settings_as_specified st DJANGO_SETTINGS_KEY value)
                   name).
Proof.
  intros H.
  specialize (H postgres no_overrides all_of_overrides initial None "AND_KEY").
  vm_compute in H. discriminate H.
Qed.

(** The two sides of the comparison above, evaluated. *)
Example reload_settings_none_evaluated :
  fst <$> get postgres no_overrides all_of_overrides
            (reload_settings initial DJANGO_SETTINGS_KEY None) "AND_KEY"
  = Some (Return (PStr "all_of"))
  ∧ fst <$> get postgres no_overrides all_of_overrides
              (reload_settings_as_specified initial DJANGO_SETTINGS_KEY None)
              "AND_KEY"
    = Some (Return (PStr "and")).
Proof. split; vm_compute; reflexivity. Qed.

(** C7. A notification for any other key changes nothing: the global
    refers to the same location, the store holds the same instances, and
    every lookup gives what it gave before. *)
Theorem reload_settings_other_key
    (st : State) (setting : string) (value : option (gmap string pyval)) :
  setting ≠ DJANGO_SETTINGS_KEY →
  reload_settings st setting value = st
  ∧ settings (reload_settings st setting value) = settings st
  ∧ objects (reload_settings st setting value) = objects st
  ∧ (∀ connection import_time_settings dj name,
       get connection import_time_settings dj
         (reload_settings st setting value) name
       = get connection import_time_settings dj st name).
Proof.
  intros Hne.
  assert (Hsame : reload_settings st setting value = st).
  { unfold reload_settings. rewrite bool_decide_eq_false_2 by exact Hne.
    reflexivity. }
  rewrite Hsame. repeat split; reflexivity.
Qed.

Lemma reload_settings_other_key_witness :
  reload_settings initial "DEBUG" (Some (<["AND_KEY" := PStr "all_of"]> ∅))
  = initial.
Proof.
  apply (reload_settings_other_key initial "DEBUG"
           (Some (<["AND_KEY" := PStr "all_of"]> ∅))).
  unfold DJANGO_SETTINGS_KEY. discriminate.
Defined.

End ConfFacts.

(** * Properties of the settings resolver over shared dict objects *)

Module ConfRefFacts.
Import Samples.

Section Resolver.

Variable connection : Conf.Connection.
Variable import_time_settings : Conf.DjangoSettings.

Local Abbreviation FIXED :=
  (Conf.FIXED_SETTINGS connection import_time_settings).
Local Abbreviation getattr :=
  (ConfRef.__getattr__ connection import_time_settings).

Local Abbreviation answer :=
  (ConfRef.answer connection import_time_settings).

(** A read on an instance that holds a reference answers from the
    current content of the dict referred to, whatever the host attribute
    is bound to, and changes neither the instance nor the store. *)
Lemma getattr_cached (dicts : list (gmap string pyval))
    (host : ConfRef.DjangoSettings) (r : nat) (name : string)
    (mapping : gmap string pyval) :
  dicts !! r = Some mapping →
  getattr dicts host (ConfRef.__init__ (Some r)) name
  = (answer name mapping, ConfRef.__init__ (Some r), dicts).
Proof.
  intros Hr.
  unfold ConfRef.__getattr__, ConfRef.answer, dict_contains, dict_getitem.
  destruct (FIXED !! name) as [v|]; simpl.
  { destruct (Conf.DEFAULT_SETTINGS !! name); reflexivity. }
  destruct (Conf.DEFAULT_SETTINGS !! name) as [d|]; simpl; [|reflexivity].
  unfold ConfRef.user_settings. simpl.
  rewrite Hr. destruct (mapping !! name) as [u|]; reflexivity.
Qed.

(** A read of a name that is not a default key touches neither the
    instance nor the store. *)
Lemma getattr_not_default (dicts : list (gmap string pyval))
    (host : ConfRef.DjangoSettings) (self : ConfRef.Settings)
    (name : string) :
  Conf.DEFAULT_SETTINGS !! name = None →
  (getattr dicts host self name).1.2 = self
  ∧ (getattr dicts host self name).2 = dicts.
Proof.
  intros Hd. unfold ConfRef.__getattr__, dict_contains.
  destruct (FIXED !! name); simpl; rewrite ?Hd; split; reflexivity.
Qed.

(** The content view of a read: with every reference in the store, a
    read over the store gives what [Conf.__getattr__] gives on the
    contents, and the instance it leaves has the content the other
    leaves. *)
Lemma getattr_content (dicts : list (gmap string pyval))
    (host : ConfRef.DjangoSettings) (self : ConfRef.Settings)
    (name : string) :
  ConfRef.in_store dicts (ConfRef.GRAPHENE_DJANGO_FILTER host) →
  ConfRef.in_store dicts (ConfRef._user_settings self) →
  ((getattr dicts host self name).1.1,
   ConfRef.content_of_instance (getattr dicts host self name).2
     (getattr dicts host self name).1.2)
  = Conf.__getattr__ connection import_time_settings
      (ConfRef.content_of_host dicts host)
      (ConfRef.content_of_instance dicts self) name.
Proof.
  intros Hhost Hself. rewrite ConfFacts.getattr_cases.
  destruct self as [[r|]]; simpl in Hself.
  - apply lookup_lt_is_Some_2 in Hself as [mapping Hr].
    pose proof (getattr_cached dicts host r name mapping Hr) as Hcached.
    unfold ConfRef.__init__ in Hcached. rewrite Hcached.
    unfold ConfRef.content_of_instance, Conf.user_settings, ConfRef.answer.
    simpl.
    rewrite Hr. simpl.
    destruct (FIXED !! name); [reflexivity|].
    destruct (Conf.DEFAULT_SETTINGS !! name); reflexivity.
  - unfold ConfRef.__getattr__, dict_contains, dict_getitem.
    unfold ConfRef.content_of_instance, ConfRef.content_of_host,
      Conf.user_settings. simpl.
    destruct (FIXED !! name) as [v|]; simpl.
    { destruct (Conf.DEFAULT_SETTINGS !! name); reflexivity. }
    destruct (Conf.DEFAULT_SETTINGS !! name) as [d|]; simpl; [|reflexivity].
    destruct host as [[r|]]; simpl in *.
    + apply lookup_lt_is_Some_2 in Hhost as [mapping Hr].
      unfold ConfRef.user_settings. simpl. rewrite Hr. simpl.
      destruct (mapping !! name) as [u|]; simpl; rewrite ?Hr; reflexivity.
    + unfold ConfRef.user_settings. simpl.
      rewrite ConfFacts.lookup_new_dict. simpl.
      rewrite lookup_empty. simpl.
      rewrite ?ConfFacts.lookup_new_dict. reflexivity.
Qed.

(** C10, as the code has it.  On an instance built with [None], the first
    read of a default key takes the dict object the host's namespace
    attribute is bound to, or a new empty dict when the attribute is not
    set, answers from its content and keeps the reference.  Every later
    read on that instance answers from the content that dict object has
    at the time of the read, whatever the host attribute is bound to by
    then, and changes nothing: rebinding or removing the host attribute
    is not seen, a change made in place to the cached dict is.  A read of
    a fixed key or of an unknown name does not read or keep a mapping. *)
Theorem getattr_caches_mapping_object
    (dicts : list (gmap string pyval)) (host : ConfRef.DjangoSettings)
    (name : string) (d : pyval) :
  Conf.DEFAULT_SETTINGS !! name = Some d →
  ConfRef.in_store dicts (ConfRef.GRAPHENE_DJANGO_FILTER host) →
  let first := getattr dicts host (ConfRef.__init__ None) name in
  let r := match ConfRef.GRAPHENE_DJANGO_FILTER host with
           | Some r => r
           | None => length dicts
           end in
  first.1.2 = ConfRef.__init__ (Some r)
  ∧ first.2 = match ConfRef.GRAPHENE_DJANGO_FILTER host with
              | Some _ => dicts
              | None => dicts ++ [∅]
              end
  ∧ (∃ mapping, first.2 !! r = Some mapping
                ∧ first.1.1 = match mapping !! name with
                              | Some u => Return u
                              | None => Return d
                              end)
  ∧ (∀ dicts' host' name' mapping',
       dicts' !! r = Some mapping' →
       getattr dicts' host' first.1.2 name'
       = (answer name' mapping', first.1.2, dicts'))
  ∧ (∀ dicts' host' name',
       Conf.DEFAULT_SETTINGS !! name' = None →
       (getattr dicts' host' (ConfRef.__init__ None) name').1.2
       = ConfRef.__init__ None).
Proof.
  intros Hd Hhost first r.
  assert (Hfixed : FIXED !! name = None)
    by exact (ConfFacts.default_not_fixed _ _ name d Hd).
  assert (Hfirst :
            ∃ mapping,
              match ConfRef.GRAPHENE_DJANGO_FILTER host with
              | Some _ => dicts
              | None => dicts ++ [∅]
              end !! r = Some mapping
              ∧ first = (match mapping !! name with
                         | Some u => Return u
                         | None => Return d
                         end, ConfRef.__init__ (Some r),
                         match ConfRef.GRAPHENE_DJANGO_FILTER host with
                         | Some _ => dicts
                         | None => dicts ++ [∅]
                         end)).
  { subst first r.
    unfold ConfRef.__getattr__, dict_contains, dict_getitem.
    rewrite Hfixed, Hd. simpl. unfold ConfRef.user_settings.
    destruct host as [[r|]]; simpl in *.
    - apply lookup_lt_is_Some_2 in Hhost as [mapping Hr].
      exists mapping. split; [exact Hr|]. rewrite Hr.
      destruct (mapping !! name) as [u|]; reflexivity.
    - exists ∅. split; [apply ConfFacts.lookup_new_dict|].
      rewrite ConfFacts.lookup_new_dict, lookup_empty. reflexivity. }
  destruct Hfirst as (mapping & Hr & ->). cbn [fst snd].
  split; [reflexivity|]. split; [reflexivity|].
  split; [exists mapping; split; [exact Hr|reflexivity]|].
  split.
  - intros dicts' host' name' mapping' Hr'.
    apply getattr_cached, Hr'.
  - intros dicts' host' name' Hd'.
    apply (getattr_not_default dicts' host' _ name' Hd').
Qed.

End Resolver.

Lemma getattr_caches_mapping_object_witness :
  (ConfRef.__getattr__ postgres no_overrides
     [<["AND_KEY" := PStr "all_of"]> ∅]
     {| ConfRef.GRAPHENE_DJANGO_FILTER := Some 0 |}
     (ConfRef.__init__ None) "AND_KEY").1.2
  = ConfRef.__init__ (Some 0).
Proof.
  destruct (getattr_caches_mapping_object postgres no_overrides
              [<["AND_KEY" := PStr "all_of"]> ∅]
              {| ConfRef.GRAPHENE_DJANGO_FILTER := Some 0 |}
              "AND_KEY" (PStr "and")) as [Hself _].
  - vm_compute. reflexivity.
  - simpl. lia.
  - exact Hself.
Defined.

(** C10 as the specification words it does not hold, on two counts.  A
    change made in place to the host's dict after the first read, with no
    notification, changes what later reads return; and the first read of
    a name that is not fixed caches nothing when the name is not a
    default key either. *)
Lemma cached_mapping_follows_in_place_change :
  ¬ (∀ connection import_time_settings dicts host name r key value host',
       let first :=
         ConfRef.__getattr__ connection import_time_settings dicts host
           (ConfRef.__init__ None) name in
       (ConfRef.__getattr__ connection import_time_settings
          (ConfRef.setitem_in_place first.2 r key value) host'
          first.1.2 name).1.1
       = first.1.1)
  ∧ ¬ (∀ connection import_time_settings dicts host name,
         Conf.FIXED_SETTINGS connection import_time_settings !! name = None →
         ConfRef._user_settings
           (ConfRef.__getattr__ connection import_time_settings dicts host
              (ConfRef.__init__ None) name).1.2
         ≠ None).
Proof.
  split.
  - intros H.
    specialize (H postgres no_overrides
                  [<["AND_KEY" := PStr "all_of"]> ∅]
                  {| ConfRef.GRAPHENE_DJANGO_FILTER := Some 0 |}
                  "AND_KEY" 0 "AND_KEY" (PStr "any_of")
                  {| ConfRef.GRAPHENE_DJANGO_FILTER := Some 0 |}).
    vm_compute in H. discriminate H.
  - intros H.
    apply (H postgres no_overrides [] {| ConfRef.GRAPHENE_DJANGO_FILTER := None |}
             "FILTER_KEYS"); vm_compute; reflexivity.
Qed.

(** The reads before and after the change in place, evaluated. *)
Example in_place_change_evaluated :
  let dicts := [<["AND_KEY" := PStr "all_of"]> ∅] in
  let host := {| ConfRef.GRAPHENE_DJANGO_FILTER := Some 0 |} in
  let first :=
    ConfRef.__getattr__ postgres no_overrides dicts host
      (ConfRef.__init__ None) "AND_KEY" in
  first.1.1 = Return (PStr "all_of")
  ∧ (ConfRef.__getattr__ postgres no_overrides
       (ConfRef.setitem_in_place first.2 0 "AND_KEY" (PStr "any_of")) host
       first.1.2 "AND_KEY").1.1
    = Return (PStr "any_of")
  ∧ (ConfRef.__getattr__ postgres no_overrides first.2
       {| ConfRef.GRAPHENE_DJANGO_FILTER := None |}
       first.1.2 "AND_KEY").1.1
    = Return (PStr "all_of").
Proof. repeat split; vm_compute; reflexivity. Qed.

End ConfRefFacts.

(** * Properties of the class namespaces and of field collection *)

Module GrapheneFacts.
  Import graphene.

Section Dict.
  Context {V : Type}.
  Implicit Types (d items : list (pyval * V)) (k : pyval) (v : V).

Lemma dict_get_app d1 d2 k :
  dict_get (d1 ++ d2) k =
    match dict_get d1 k with
    | Some v => Some v
    | None => dict_get d2 k
    end.
Proof.
  induction d1 as [|[k1 v1] d1 IH]; simpl; [reflexivity|].
  destruct (decide (k1 = k)); [reflexivity|exact IH].
Qed.

Lemma dict_get_setitem k v d k' :
  dict_get (dict_setitem k v d) k' =
    if decide (k = k') then Some v else dict_get d k'.
Proof.
  induction d as [|[k0 v0] d IH]; simpl; [reflexivity|].
  destruct (decide (k0 = k)) as [->|Hne]; simpl.
  - destruct (decide (k = k')); reflexivity.
  - destruct (decide (k0 = k')) as [->|Hne'].
    + rewrite decide_False by congruence. reflexivity.
    + exact IH.
Qed.

(** In a dict display the binding written last for a key is the one
    that counts. *)
Lemma dict_get_display_from d items k :
  dict_get (foldl (fun d kv => dict_setitem kv.1 kv.2 d) d items) k =
    match dict_get (reverse items) k with
    | Some v => Some v
    | None => dict_get d k
    end.
Proof.
  revert d. induction items as [|[k1 v1] items IH]; intros d; simpl.
  - reflexivity.
  - rewrite IH, reverse_cons, dict_get_app, dict_get_setitem. simpl.
    destruct (dict_get (reverse items) k); [reflexivity|].
    destruct (decide (k1 = k)); reflexivity.
Qed.

Lemma dict_get_display items k :
  dict_get (dict_display items) k = dict_get (reverse items) k.
Proof.
  unfold dict_display. rewrite dict_get_display_from. simpl.
  destruct (dict_get (reverse items) k); reflexivity.
Qed.

Lemma dict_setitem_keys k v d :
  map fst (dict_setitem k v d) =
    map fst d ++ (if decide (k ∈ map fst d) then [] else [k]).
Proof.
  induction d as [|[k0 v0] d IH].
  - reflexivity.
  - cbn [dict_setitem map fst].
    destruct (decide (k0 = k)) as [->|Hne]; cbn [map fst].
    + clear IH.
      destruct (decide (k ∈ k :: map fst d)) as [_|Hnin].
      * rewrite app_nil_r. reflexivity.
      * destruct Hnin. apply list_elem_of_here.
    + rewrite IH. rewrite <- app_comm_cons. f_equal. f_equal.
      destruct (decide (k ∈ map fst d)) as [Hin|Hnin];
        destruct (decide (k ∈ k0 :: map fst d)) as [Hin'|Hnin'];
        try reflexivity.
      * destruct Hnin'. apply list_elem_of_further. exact Hin.
      * apply elem_of_cons in Hin' as [Heq|Hin']; [congruence|contradiction].
Qed.

Lemma dict_setitem_NoDup k v d :
  NoDup (map fst d) → NoDup (map fst (dict_setitem k v d)).
Proof.
  intros Hd. rewrite dict_setitem_keys.
  destruct (decide (k ∈ map fst d)) as [Hin|Hnin].
  - rewrite app_nil_r. exact Hd.
  - apply NoDup_app. split; [exact Hd|]. split.
    + intros x Hx Hx'. apply list_elem_of_singleton in Hx'. subst x.
      exact (Hnin Hx).
    + apply NoDup_singleton.
Qed.

(** No key occurs twice in a dict display. *)
Lemma dict_display_NoDup items : NoDup (map fst (dict_display items)).
Proof.
  unfold dict_display.
  assert (H : ∀ d, NoDup (map fst d) →
            NoDup (map fst (foldl (fun d kv => dict_setitem kv.1 kv.2 d)
                              d items))).
  { induction items as [|[k v] items IH]; intros d Hd; simpl; [exact Hd|].
    apply IH, dict_setitem_NoDup, Hd. }
  apply H. simpl. apply NoDup_nil_2.
Qed.

Lemma dict_setitem_elem k v d k' v' :
  (k', v') ∈ dict_setitem k v d → (k', v') = (k, v) ∨ (k', v') ∈ d.
Proof.
  induction d as [|[k0 v0] d IH]; simpl; intros Hin.
  - apply list_elem_of_singleton in Hin. left. exact Hin.
  - destruct (decide (k0 = k)) as [->|Hne].
    + apply elem_of_cons in Hin as [Heq|Hin]; [left; exact Heq|].
      right. apply list_elem_of_further. exact Hin.
    + apply elem_of_cons in Hin as [Heq|Hin].
      * right. rewrite Heq. apply list_elem_of_here.
      * destruct (IH Hin) as [Heq|Hin']; [left; exact Heq|].
        right. apply list_elem_of_further. exact Hin'.
Qed.

(** Every binding of a dict display was written in it. *)
Lemma dict_display_elem items k v :
  (k, v) ∈ dict_display items → (k, v) ∈ items.
Proof.
  unfold dict_display.
  assert (H : ∀ d, (k, v) ∈ foldl (fun d kv => dict_setitem kv.1 kv.2 d)
                               d items →
            (k, v) ∈ d ∨ (k, v) ∈ items).
  { induction items as [|[k1 v1] items IH]; intros d Hin; simpl in Hin.
    - left. exact Hin.
    - destruct (IH _ Hin) as [Hd|Hi].
      + apply dict_setitem_elem in Hd as [Heq|Hd].
        * right. rewrite Heq. apply list_elem_of_here.
        * left. exact Hd.
      + right. apply list_elem_of_further. exact Hi. }
  intros Hin. destruct (H [] Hin) as [Hnil|Hi]; [|exact Hi].
  apply elem_of_nil in Hnil. destruct Hnil.
Qed.

End Dict.

Lemma yank_fields_elem attrs k f :
  (k, f) ∈ yank_fields_from_attrs attrs →
  ∃ o, (k, o) ∈ attrs ∧ get_field_as o = Some f.
Proof.
  induction attrs as [|[k0 o0] attrs IH]; simpl; intros Hin.
  - apply elem_of_nil in Hin. destruct Hin.
  - destruct (get_field_as o0) as [f0|] eqn:Hf0.
    + apply elem_of_cons in Hin as [Heq|Hin].
      * injection Heq as -> ->. exists o0. split; [apply list_elem_of_here|exact Hf0].
      * destruct (IH Hin) as (o & Ho & Hf). exists o.
        split; [apply list_elem_of_further; exact Ho|exact Hf].
    + destruct (IH Hin) as (o & Ho & Hf). exists o.
      split; [apply list_elem_of_further; exact Ho|exact Hf].
Qed.

Lemma yank_fields_absent attrs k :
  k ∉ map fst attrs → dict_get (yank_fields_from_attrs attrs) k = None.
Proof.
  induction attrs as [|[k0 o0] attrs IH]; simpl; intros Hnin; [reflexivity|].
  apply not_elem_of_cons in Hnin as [Hne Hnin].
  destruct (get_field_as o0); simpl.
  - rewrite decide_False by congruence. apply IH, Hnin.
  - apply IH, Hnin.
Qed.

(** Looking a field up by name finds what the namespace binds the name
    to, when that is a field. *)
Lemma yank_fields_get attrs k :
  NoDup (map fst attrs) →
  dict_get (yank_fields_from_attrs attrs) k =
    match dict_get attrs k with
    | Some o => get_field_as o
    | None => None
    end.
Proof.
  induction attrs as [|[k0 o0] attrs IH]; simpl; intros Hnd; [reflexivity|].
  apply NoDup_cons in Hnd as [Hnin Hnd].
  destruct (decide (k0 = k)) as [->|Hne].
  - destruct (get_field_as o0) as [f0|]; simpl.
    + rewrite decide_True by reflexivity. reflexivity.
    + apply yank_fields_absent, Hnin.
  - destruct (get_field_as o0) as [f0|]; simpl.
    + rewrite decide_False by exact Hne. apply IH, Hnd.
    + apply IH, Hnd.
Qed.


End GrapheneFacts.

(** * Further properties of namespaces and conformance *)

Module GrapheneExtra.
Import graphene GrapheneFacts.

Section Dict.
Context {V : Type}.
Implicit Types (d items : list (pyval * V)) (k : pyval) (v : V).

Lemma dict_get_elem d k v : dict_get d k = Some v → (k, v) ∈ d.
Proof.
  induction d as [|[k0 v0] d IH]; simpl; [discriminate|].
  destruct (decide (k0 = k)) as [->|Hne].
  - intros [= ->]. apply list_elem_of_here.
  - intros Hget. apply list_elem_of_further, IH, Hget.
Qed.

Lemma dict_get_None d k : dict_get d k = None ↔ k ∉ map fst d.
Proof.
  induction d as [|[k0 v0] d IH]; simpl.
  - split; [intros _; apply not_elem_of_nil|reflexivity].
  - destruct (decide (k0 = k)) as [->|Hne].
    + split; [discriminate|]. intros Hnin. destruct Hnin.
      apply list_elem_of_here.
    + rewrite IH, not_elem_of_cons. split; [intros H; split; [congruence|exact H]|].
      intros [_ H]. exact H.
Qed.

Lemma dict_get_is_Some d k : is_Some (dict_get d k) ↔ k ∈ map fst d.
Proof.
  destruct (dict_get d k) as [v|] eqn:Hget.
  - split; [intros _|intros _; eexists; reflexivity].
    apply dict_get_elem in Hget. apply list_elem_of_fmap.
    exists (k, v). split; [reflexivity|exact Hget].
  - apply dict_get_None in Hget. split; [intros [v Hv]; discriminate Hv|].
    intros Hin. destruct (Hget Hin).
Qed.

Lemma dict_get_of_elem d k v :
  NoDup (map fst d) → (k, v) ∈ d → dict_get d k = Some v.
Proof.
  induction d as [|[k0 v0] d IH]; simpl; intros Hnd Hin.
  - apply elem_of_nil in Hin. destruct Hin.
  - apply NoDup_cons in Hnd as [Hnin Hnd].
    apply elem_of_cons in Hin as [[= -> ->]|Hin].
    + rewrite decide_True by reflexivity. reflexivity.
    + destruct (decide (k0 = k)) as [->|Hne]; [|apply IH; assumption].
      destruct Hnin. apply list_elem_of_fmap. exists (k, v).
      split; [reflexivity|exact Hin].
Qed.

(** Storing under a key the dict does not have appends the entry. *)
Lemma dict_setitem_fresh k v d :
  k ∉ map fst d → dict_setitem k v d = d ++ [(k, v)].
Proof.
  induction d as [|[k0 v0] d IH]; simpl; intros Hnin; [reflexivity|].
  apply not_elem_of_cons in Hnin as [Hne Hnin].
  rewrite decide_False by congruence. rewrite IH by exact Hnin. reflexivity.
Qed.

Lemma dict_display_from_distinct d items :
  NoDup (map fst (d ++ items)) →
  foldl (fun d kv => dict_setitem kv.1 kv.2 d) d items = d ++ items.
Proof.
  revert d. induction items as [|[k v] items IH]; intros d Hnd; simpl.
  - rewrite app_nil_r. reflexivity.
  - assert (Hk : k ∉ map fst d).
    { rewrite map_app in Hnd. apply NoDup_app in Hnd as (_ & Hdis & _).
      intros Hin. apply (Hdis k Hin). simpl. apply list_elem_of_here. }
    rewrite dict_setitem_fresh by exact Hk.
    rewrite IH; rewrite <- app_assoc; [reflexivity|exact Hnd].
Qed.

(** A dict display whose keys are all different is the list as written. *)
Lemma dict_display_distinct items :
  NoDup (map fst items) → dict_display items = items.
Proof.
  intros Hnd. unfold dict_display.
  apply (dict_display_from_distinct [] items). exact Hnd.
Qed.

End Dict.

Lemma yank_fields_keys attrs k :
  k ∈ map fst (yank_fields_from_attrs attrs) → k ∈ map fst attrs.
Proof.
  intros Hin. apply list_elem_of_fmap in Hin as ([k' f] & -> & Hin).
  apply yank_fields_elem in Hin as (o & Ho & _).
  apply list_elem_of_fmap. exists (k', o). split; [reflexivity|exact Ho].
Qed.

Lemma yank_fields_NoDup attrs :
  NoDup (map fst attrs) → NoDup (map fst (yank_fields_from_attrs attrs)).
Proof.
  induction attrs as [|[k o] attrs IH]; simpl; intros Hnd; [exact Hnd|].
  apply NoDup_cons in Hnd as [Hnin Hnd].
  destruct (get_field_as o); simpl; [|apply IH, Hnd].
  apply NoDup_cons. split; [|apply IH, Hnd].
  intros Hin. apply Hnin, yank_fields_keys, Hin.
Qed.

(** Conformance of an object to a declared input type, spelled out. *)
Lemma conforms_object schema n c (entries : list (string * value)) :
  resolve schema n = Some (DeclareInput c) →
  conforms schema (ObjectValue entries) (Class n)
  = bool_decide (NoDup (map fst entries))
    && forallb
         (fun kv =>
            match get_field c (PStr kv.1) with
            | Some f => conforms schema kv.2 (type_ f)
            | None => false
            end) entries
    && forallb
         (fun nf =>
            negb (needs_value nf.2)
            || bool_decide (nf.1 ∈ map (fun kv => PStr kv.1) entries))
         (fields c).
Proof. intros Hres. simpl. rewrite Hres. reflexivity. Qed.

(** What a conforming object tells about its entries: no name twice,
    every name a field whose type the entry's value conforms to, and every
    field that needs a value named. *)
Lemma conforms_object_inv schema n c (entries : list (string * value)) :
  resolve schema n = Some (DeclareInput c) →
  conforms schema (ObjectValue entries) (Class n) = true →
  NoDup (map fst entries)
  ∧ (∀ k v, (k, v) ∈ entries →
       ∃ f, get_field c (PStr k) = Some f
            ∧ conforms schema v (type_ f) = true)
  ∧ (∀ k f, (k, f) ∈ fields c → needs_value f = true →
       k ∈ map (fun kv => PStr kv.1) entries).
Proof.
  intros Hres Hconf. rewrite (conforms_object _ _ _ _ Hres) in Hconf.
  apply andb_true_iff in Hconf as [Hconf Hgiven].
  apply andb_true_iff in Hconf as [Hnodup Hentries].
  split; [apply bool_decide_eq_true_1 in Hnodup; exact Hnodup|]. split.
  - intros k v Hin. rewrite forallb_forall in Hentries.
    apply list_elem_of_In in Hin. specialize (Hentries _ Hin). simpl in Hentries.
    destruct (get_field c (PStr k)) as [f|]; [|discriminate].
    exists f. split; [reflexivity|exact Hentries].
  - intros k f Hin Hneeds. rewrite forallb_forall in Hgiven.
    apply list_elem_of_In in Hin. specialize (Hgiven _ Hin). simpl in Hgiven.
    rewrite Hneeds in Hgiven. simpl in Hgiven.
    apply bool_decide_eq_true_1 in Hgiven. exact Hgiven.
Qed.

(** For a type none of whose fields needs a value, conformance is a
    condition on the entries alone. *)
Lemma conforms_all_optional schema n c (entries : list (string * value)) :
  resolve schema n = Some (DeclareInput c) →
  Forall (fun nf => needs_value nf.2 = false) (fields c) →
  conforms schema (ObjectValue entries) (Class n) = true
  ↔ NoDup (map fst entries)
    ∧ Forall (fun kv =>
                ∃ f, get_field c (PStr kv.1) = Some f
                     ∧ conforms schema kv.2 (type_ f) = true) entries.
Proof.
  intros Hres Hopt. split.
  - intros Hconf.
    destruct (conforms_object_inv _ _ _ _ Hres Hconf) as (Hnd & Hentries & _).
    split; [exact Hnd|]. apply Forall_forall. intros [k v] Hin.
    apply Hentries, Hin.
  - intros [Hnd Hentries]. rewrite (conforms_object _ _ _ _ Hres).
    apply andb_true_iff. split; [apply andb_true_iff; split|].
    + apply bool_decide_eq_true_2, Hnd.
    + apply forallb_forall. intros kv Hin.
      rewrite Forall_forall in Hentries. apply list_elem_of_In in Hin.
      destruct (Hentries _ Hin) as (f & -> & Hf). exact Hf.
    + apply forallb_forall. intros nf Hin.
      rewrite Forall_forall in Hopt. apply list_elem_of_In in Hin.
      rewrite (Hopt _ Hin). reflexivity.
Qed.

End GrapheneExtra.

(** * Properties of the fields of a dict display *)

Module DisplayFacts.
Import graphene GrapheneFacts GrapheneExtra.

Local Abbreviation uncounted :=
  (map (fun kv : pyval * (nat * pyobj) => (kv.1, kv.2.2))).

Lemma counted_from_uncounted (i : nat) (written : list (pyval * pyobj)) :
  uncounted (counted_from i written) = written.
Proof.
  revert i. induction written as [|[k o] written IH]; intros i; simpl;
    [reflexivity|].
  rewrite IH. reflexivity.
Qed.

Lemma dict_setitem_uncounted k (c : nat) (o : pyobj) d :
  uncounted (dict_setitem k (c, o) d) = dict_setitem k o (uncounted d).
Proof.
  induction d as [|[k0 [c0 o0]] d IH]; simpl; [reflexivity|].
  destruct (decide (k0 = k)); simpl; [reflexivity|].
  rewrite IH. reflexivity.
Qed.

Lemma dict_display_uncounted (items : list (pyval * (nat * pyobj))) :
  uncounted (dict_display items) = dict_display (uncounted items).
Proof.
  unfold dict_display.
  assert (H : ∀ d,
            uncounted (foldl (fun d kv => dict_setitem kv.1 kv.2 d) d items)
            = foldl (fun d kv => dict_setitem kv.1 kv.2 d) (uncounted d)
                (uncounted items)).
  { induction items as [|[k [c o]] items IH]; intros d; simpl; [reflexivity|].
    rewrite IH, dict_setitem_uncounted. reflexivity. }
  apply (H []).
Qed.

Lemma yank_counted_uncounted (attrs : list (pyval * (nat * pyobj))) :
  map snd (yank_counted attrs) = yank_fields_from_attrs (uncounted attrs).
Proof.
  induction attrs as [|[k [c o]] attrs IH]; simpl; [reflexivity|].
  destruct (get_field_as o); simpl; rewrite IH; reflexivity.
Qed.

Lemma insert_by_counter_perm {A} (x : nat * A) (l : list (nat * A)) :
  insert_by_counter x l ≡ₚ x :: l.
Proof.
  induction l as [|y l IH]; simpl; [reflexivity|].
  destruct (x.1 <=? y.1); [reflexivity|].
  rewrite IH. apply Permutation_swap.
Qed.

Lemma sort_by_counter_perm {A} (l : list (nat * A)) : sort_by_counter l ≡ₚ l.
Proof.
  unfold sort_by_counter. induction l as [|x l IH]; simpl; [reflexivity|].
  rewrite insert_by_counter_perm, IH. reflexivity.
Qed.

(** Ordering by creation only reorders the fields of the namespace. *)
Lemma display_fields_perm (written : list (pyval * pyobj)) :
  display_fields written ≡ₚ yank_fields_from_attrs (dict_display written).
Proof.
  unfold display_fields, creation_order.
  rewrite sort_by_counter_perm, yank_counted_uncounted.
  rewrite dict_display_uncounted, counted_from_uncounted. reflexivity.
Qed.

Lemma display_fields_NoDup (written : list (pyval * pyobj)) :
  NoDup (map fst (display_fields written)).
Proof.
  rewrite display_fields_perm.
  apply yank_fields_NoDup, dict_display_NoDup.
Qed.

Lemma dict_get_perm {V} (d1 d2 : list (pyval * V)) (k : pyval) :
  d1 ≡ₚ d2 → NoDup (map fst d1) → dict_get d1 k = dict_get d2 k.
Proof.
  intros Hperm Hnd.
  assert (Hnd2 : NoDup (map fst d2)) by (rewrite <- Hperm; exact Hnd).
  destruct (dict_get d1 k) as [v|] eqn:H1.
  - apply dict_get_elem in H1. rewrite Hperm in H1.
    symmetry. apply dict_get_of_elem; assumption.
  - apply dict_get_None in H1. symmetry. apply dict_get_None.
    rewrite <- Hperm. exact H1.
Qed.

Lemma display_fields_get (written : list (pyval * pyobj)) (k : pyval) :
  dict_get (display_fields written) k =
    match dict_get (reverse written) k with
    | Some o => get_field_as o
    | None => None
    end.
Proof.
  rewrite (dict_get_perm _ _ k (display_fields_perm written)
             (display_fields_NoDup written)).
  rewrite yank_fields_get by apply dict_display_NoDup.
  rewrite dict_get_display. reflexivity.
Qed.

Lemma display_fields_elem (written : list (pyval * pyobj)) k f :
  (k, f) ∈ display_fields written →
  ∃ o, (k, o) ∈ written ∧ get_field_as o = Some f.
Proof.
  rewrite display_fields_perm. intros Hin.
  apply yank_fields_elem in Hin as (o & Ho & Hf).
  exists o. split; [apply dict_display_elem, Ho|exact Hf].
Qed.

(** Every binding of the namespace of a display was written in it. *)
Lemma namespace_outcomes (written : list (pyval * pyobj))
    (p : pyval * pyobj → bool) :
  Forall (fun kv => p kv = true) written →
  forallb p (dict_display written) = true.
Proof.
  intros Hall. apply forallb_forall. intros [k o] Hin.
  apply list_elem_of_In, dict_display_elem in Hin.
  rewrite Forall_forall in Hall. apply (Hall _ Hin).
Qed.

End DisplayFacts.

(** * Properties of the declared input types *)

Module InputTypeFacts.
  Import Conf InputTypes Samples graphene GrapheneFacts GrapheneExtra DisplayFacts.

(** ** The search-query type, for any three combinator keys *)

Section Namespace.

Variables and_key or_key not_key : pyval.

Local Abbreviation T :=
  (created "SearchQueryInputType"
     (search_query_entries and_key or_key not_key)).

Local Abbreviation list_of_self := (List (Thunk "SearchQueryInputType")).

Lemma search_query_get_field (k : pyval) :
  get_field T k =
    if decide (not_key = k) then
      Some (mount list_of_self false None "`Not` field")
    else if decide (or_key = k) then
      Some (mount list_of_self false None "`Or` field")
    else if decide (and_key = k) then
      Some (mount list_of_self false None "`And` field")
    else if decide (PStr "config" = k) then
      Some (mount (Class "SearchConfigInputType") false None "Query config")
    else if decide (PStr "value" = k) then
      Some (mount String true None "Query value")
    else None.
Proof.
  unfold get_field, created. cbn [fields].
  rewrite display_fields_get. unfold search_query_entries.
  cbn [reverse rev_append dict_get].
  repeat (case_decide; [reflexivity|]).
  reflexivity.
Qed.

Lemma search_query_combinator_field (k : pyval) :
  k ∈ [and_key; or_key; not_key] →
  ∃ f, get_field T k = Some f
       ∧ type_ f = list_of_self ∧ default_value f = None.
Proof.
  intros Hk. rewrite search_query_get_field.
  repeat (case_decide; [eexists; repeat split; reflexivity|]).
  exfalso.
  repeat (apply elem_of_cons in Hk as [Hk|Hk]; [congruence|]).
  apply elem_of_nil in Hk. exact Hk.
Qed.


(** The only field that has to be given is [value], and only when no
    combinator key took its name. *)
Lemma search_query_needs_value (k : pyval) (f : field) :
  (k, f) ∈ fields T → needs_value f = true → k = PStr "value".
Proof.
  unfold created. cbn [fields]. intros Hin Hneeds.
  apply display_fields_elem in Hin as (obj & Hobj & Hf).
  unfold search_query_entries in Hobj.
  repeat (apply elem_of_cons in Hobj as [Heq|Hobj];
          [injection Heq as -> ->; simpl in Hf;
           first [discriminate Hf
                 | injection Hf as <-; first [reflexivity|discriminate Hneeds]]|]).
  apply elem_of_nil in Hobj. destruct Hobj.
Qed.

Lemma search_query_resolves :
  resolve (declarations T) "SearchQueryInputType" = Some (DeclareInput T).
Proof. reflexivity. Qed.

Lemma conforms_search_query (entries : list (string * value)) :
  conforms (declarations T) (ObjectValue entries)
    (Class "SearchQueryInputType")
  = bool_decide (NoDup (map fst entries))
    && forallb
         (fun kv =>
            match get_field T (PStr kv.1) with
            | Some f => conforms (declarations T) kv.2 (type_ f)
            | None => false
            end) entries
    && forallb
         (fun nf =>
            negb (needs_value nf.2)
            || bool_decide (nf.1 ∈ map (fun kv => PStr kv.1) entries))
         (fields T).
Proof. reflexivity. Qed.




(** ** Creating the class *)

Lemma plain_key_binds (k : pyval) (f : field) :
  plain_key k = true → binding_outcome k (Mounted f) = Return tt.
Proof.
  destruct k as [name|b]; simpl; [|discriminate].
  intros Hplain. apply andb_true_iff in Hplain as [Hmeta Hunder].
  apply negb_true_iff in Hmeta. apply negb_true_iff in Hunder.
  rewrite Hmeta.
  destruct (bool_decide (name = "__doc__")) eqn:Hdoc.
  - apply bool_decide_eq_true_1 in Hdoc. subst name.
    vm_compute in Hunder. discriminate Hunder.
  - rewrite Hunder. reflexivity.
Qed.

(** With three plain keys the class is created. *)
Lemma type_new_plain :
  plain_key and_key = true → plain_key or_key = true →
  plain_key not_key = true →
  type_new "SearchQueryInputType"
    (search_query_entries and_key or_key not_key) = Return T.
Proof.
  intros Ha Ho Hn.
  assert (Hall : Forall (fun kv => returns (binding_outcome kv.1 kv.2) = true)
                   (search_query_entries and_key or_key not_key)).
  { unfold search_query_entries, InputField.
    repeat (apply Forall_cons; split;
            [first [reflexivity
                   | simpl; rewrite plain_key_binds by assumption;
                     reflexivity]|]).
    apply Forall_nil_2. }
  unfold type_new.
  rewrite (namespace_outcomes _ _ Hall).
  replace (existsb (fun kv => raises (binding_outcome kv.1 kv.2))
             (dict_display (search_query_entries and_key or_key not_key)))
    with false; [reflexivity|].
  symmetry. apply not_true_is_false. intros Hex.
  apply existsb_exists in Hex as ([k o] & Hin & Hraises).
  apply list_elem_of_In, dict_display_elem in Hin.
  rewrite Forall_forall in Hall. specialize (Hall _ Hin). simpl in *.
  destruct (binding_outcome k o); discriminate.
Qed.



End Namespace.

(** ** The factory *)

Section Factory.

Variable connection : Connection.
Variable import_time_settings : DjangoSettings.

Local Abbreviation getattr := (__getattr__ connection import_time_settings).
Local Abbreviation create :=
  (create_search_query_input_type connection import_time_settings).

(** What a default key resolves to on instance [self] under host
    configuration [dj]. *)
Lemma getattr_default_key (dj : DjangoSettings) (self : Settings)
    (name : string) (d : pyval) :
  DEFAULT_SETTINGS !! name = Some d →
  getattr dj self name =
    (Return (default d ((user_settings dj self).1 !! name)),
     (user_settings dj self).2).
Proof.
  intros Hd. rewrite ConfFacts.getattr_cases.
  rewrite (ConfFacts.default_not_fixed _ _ name d Hd), Hd.
  destruct ((user_settings dj self).1 !! name); reflexivity.
Qed.

(** The three keys the factory reads are default keys, so the reads
    return; they are resolved against one mapping, the one the first read
    finds or caches.  What the factory gives is what [type(...)] gives
    for these keys. *)
Lemma create_search_query_input_type_eq
    (dj : DjangoSettings) (self : Settings) :
  create dj self =
    (type_new "SearchQueryInputType"
       (search_query_entries
          (default (PStr "and") ((user_settings dj self).1 !! "AND_KEY"))
          (default (PStr "or") ((user_settings dj self).1 !! "OR_KEY"))
          (default (PStr "not") ((user_settings dj self).1 !! "NOT_KEY"))),
     (user_settings dj self).2).
Proof.
  unfold create_search_query_input_type, bind, pure_call.
  rewrite (getattr_default_key dj self "AND_KEY" (PStr "and"))
    by reflexivity.
  rewrite (getattr_default_key dj _ "OR_KEY" (PStr "or")) by reflexivity.
  rewrite (ConfFacts.user_settings_cached dj dj self).
  rewrite (getattr_default_key dj _ "NOT_KEY" (PStr "not")) by reflexivity.
  rewrite (ConfFacts.user_settings_cached dj dj self).
  reflexivity.
Qed.

Lemma type_new_Return (name : string) (written : list (pyval * pyobj))
    (c : InputObjectType) :
  type_new name written = Return c → c = created name written.
Proof.
  unfold type_new.
  destruct (existsb _ _); [discriminate|].
  destruct (forallb _ _); [|discriminate].
  intros [= <-]. reflexivity.
Qed.



(** The factory at that configuration, evaluated. *)
Example create_search_query_input_type_on_Meta :
  (create_search_query_input_type postgres no_overrides and_key_named_Meta
     (__init__ None)).1 = Raise ClassCreationError.
Proof. vm_compute. reflexivity. Qed.

(** C5. When the active user mapping overrides none of the three
    combinator keys, the type the factory returns has the fields
    [value], [config], [and], [or] and [not], each once and no other. *)
Theorem search_query_default_field_set
    (dj : DjangoSettings) (self : Settings) :
  (user_settings dj self).1 !! "AND_KEY" = None →
  (user_settings dj self).1 !! "OR_KEY" = None →
  (user_settings dj self).1 !! "NOT_KEY" = None →
  ∃ T : InputObjectType,
    (create dj self).1 = Return T
    ∧ field_names T ≡ₚ
        [PStr "value"; PStr "config"; PStr "and"; PStr "or"; PStr "not"]
    ∧ (∀ k, k ∈ field_names T ↔
            k ∈ [PStr "value"; PStr "config"; PStr "and"; PStr "or";
                 PStr "not"]).
Proof.
  intros Hand Hor Hnot. eexists.
  rewrite create_search_query_input_type_eq, Hand, Hor, Hnot.
  split; [reflexivity|].
  split; [reflexivity|]. intros k. reflexivity.
Qed.

End Factory.


Lemma search_query_default_field_set_witness :
  ∃ T : InputObjectType,
    (create_search_query_input_type postgres no_overrides no_overrides
       (__init__ None)).1 = Return T
    ∧ field_names T ≡ₚ
        [PStr "value"; PStr "config"; PStr "and"; PStr "or"; PStr "not"].
Proof.
  destruct (search_query_default_field_set postgres no_overrides
              no_overrides (__init__ None))
    as (T & HT & Hperm & _); [vm_compute; reflexivity ..|].
  exists T. split; [exact HT|exact Hperm].
Defined.

(** ** The static declarations *)

(** C3, evaluated on the code.  The class exposes two fields, [fields]
    (a required list of non-null strings) and [weight] (an optional
    [SearchVectorWeight]).  [config] is not among them: the attribute is
    bound to a tuple, which is not a field, so an input value that gives
    [config] does not conform. *)
Theorem SearchVectorInputType_fields :
  field_names SearchVectorInputType = [PStr "fields"; PStr "weight"]
  ∧ type_ <$> get_field SearchVectorInputType (PStr "fields")
    = Some (NonNull (List (NonNull String)))
  ∧ type_ <$> get_field SearchVectorInputType (PStr "weight")
    = Some (Class "SearchVectorWeight")
  ∧ resolve default_declarations "SearchVectorWeight"
    = Some (DeclareEnum SearchVectorWeight)
  ∧ get_field SearchVectorInputType (PStr "config") = None
  ∧ conforms default_declarations vector_with_weight
      (Class "SearchVectorInputType") = true
  ∧ conforms default_declarations vector_with_config
      (Class "SearchVectorInputType") = false.
Proof. repeat split; vm_compute; reflexivity. Qed.

(** C4, evaluated on the code.  The class exposes five fields: the
    required [vector], [query] and [lookups], the optional boolean
    [cover_density] and the optional integer [normalization].  [weights]
    is not among them: the attribute is bound to a tuple, which is not a
    field, so an input value that gives [weights] does not conform. *)
Theorem SearchRankFilterInputType_fields :
  field_names SearchRankFilterInputType
  = [PStr "vector"; PStr "query"; PStr "lookups"; PStr "cover_density";
     PStr "normalization"]
  ∧ type_ <$> get_field SearchRankFilterInputType (PStr "vector")
    = Some (NonNull (Class "SearchVectorInputType"))
  ∧ type_ <$> get_field SearchRankFilterInputType (PStr "query")
    = Some (NonNull (Class "SearchQueryInputType"))
  ∧ type_ <$> get_field SearchRankFilterInputType (PStr "lookups")
    = Some (NonNull (Class "FloatLookups"))
  ∧ type_ <$> get_field SearchRankFilterInputType (PStr "cover_density")
    = Some Boolean
  ∧ type_ <$> get_field SearchRankFilterInputType (PStr "normalization")
    = Some Int
  ∧ get_field SearchRankFilterInputType (PStr "weights") = None
  ∧ conforms default_declarations (rank_filter [])
      (Class "SearchRankFilterInputType") = true
  ∧ conforms default_declarations (rank_filter [weights_entry])
      (Class "SearchRankFilterInputType") = false.
Proof. repeat split; vm_compute; reflexivity. Qed.

(** C9. The class exposes exactly [kind], [lookups] and [value]: [kind]
    is an optional [TrigramSearchKind] whose default is the member
    [SIMILARITY], [lookups] a required [FloatLookups], [value] a required
    string.  A value that leaves [kind] out conforms, one that leaves
    [lookups] or [value] out does not. *)
Theorem TrigramFilterInputType_fields :
  field_names TrigramFilterInputType
  = [PStr "kind"; PStr "lookups"; PStr "value"]
  ∧ type_ <$> get_field TrigramFilterInputType (PStr "kind")
    = Some (Class "TrigramSearchKind")
  ∧ default_value <$> get_field TrigramFilterInputType (PStr "kind")
    = Some (Some (EnumValue "SIMILARITY"))
  ∧ resolve default_declarations "TrigramSearchKind"
    = Some (DeclareEnum TrigramSearchKind)
  ∧ "SIMILARITY" ∈ map fst (members TrigramSearchKind)
  ∧ type_ <$> get_field TrigramFilterInputType (PStr "lookups")
    = Some (NonNull (Class "FloatLookups"))
  ∧ resolve default_declarations "FloatLookups"
    = Some (DeclareInput FloatLookups)
  ∧ type_ <$> get_field TrigramFilterInputType (PStr "value")
    = Some (NonNull String)
  ∧ conforms default_declarations (trigram_filter [])
      (Class "TrigramFilterInputType") = true
  ∧ conforms default_declarations
      (trigram_filter [("kind", EnumValue "DISTANCE")])
      (Class "TrigramFilterInputType") = true
  ∧ conforms default_declarations
      (ObjectValue [("value", Str "x")])
      (Class "TrigramFilterInputType") = false
  ∧ conforms default_declarations
      (ObjectValue [("lookups", ObjectValue [])])
      (Class "TrigramFilterInputType") = false.
Proof.
  repeat split; try (vm_compute; reflexivity).
  simpl. apply list_elem_of_here.
Qed.

End InputTypeFacts.

(** * Further properties of the settings resolver *)

Module ConfExtra.
Import Conf ConfState Samples Runs.

Section Resolver.

Variable connection : Connection.
Variable import_time_settings : DjangoSettings.

Local Abbreviation FIXED := (FIXED_SETTINGS connection import_time_settings).
Local Abbreviation getattr := (__getattr__ connection import_time_settings).
Local Abbreviation read_all' := (read_all connection import_time_settings).

(** X1. The fixed settings come from the environment seen when the module was
    loaded: [IS_POSTGRESQL] says whether the connection's vendor is
    [postgresql], [HAS_TRIGRAM_EXTENSION] is the host's flag of that name
    and [False] without one.  No instance, user mapping or later host
    configuration changes them, and reading them leaves the instance as it
    was. *)
Theorem fixed_settings_from_environment
    (dj : DjangoSettings) (self : Settings) :
  getattr dj self "IS_POSTGRESQL" =
    (Return (PBool (bool_decide (vendor connection = "postgresql"))), self)
  ∧ getattr dj self "HAS_TRIGRAM_EXTENSION" =
      (Return (getattr_or
                 (GRAPHENE_DJANGO_FILTER_HAS_TRIGRAM_EXTENSION
                    import_time_settings)
                 (PBool false)), self).
Proof.
  rewrite !ConfFacts.getattr_cases, !ConfFacts.fixed_lookup.
  split; reflexivity.
Qed.

(** X2. [__getattr__] raises for unknown names only: when it raises, the error
    is the [AttributeError] for that name, the name is in neither key set,
    and the instance was not touched.  The subscripts never raise
    [KeyError]. *)
Theorem getattr_raises_only_for_unknown
    (dj : DjangoSettings) (self : Settings) (name : string) (e : exc) :
  (getattr dj self name).1 = Raise e →
  e = AttributeError ("Invalid Graphene setting: `" +:+ name +:+ "`")
  ∧ FIXED !! name = None
  ∧ DEFAULT_SETTINGS !! name = None
  ∧ (getattr dj self name).2 = self.
Proof.
  rewrite ConfFacts.getattr_cases.
  destruct (FIXED !! name) as [v|]; [discriminate|].
  destruct (DEFAULT_SETTINGS !! name) as [d|]; simpl.
  - destruct ((user_settings dj self).1 !! name); discriminate.
  - intros [= <-]. repeat split; reflexivity.
Qed.





(** X4. An instance built with a mapping never reads the host configuration
    and is never modified: any reads leave it as it was, and what a read
    returns is the same under every host configuration. *)
Theorem explicit_mapping_ignores_host
    (dj dj' : DjangoSettings) (mapping : gmap string pyval)
    (names : list string) (name : string) :
  read_all' dj (__init__ (Some mapping)) names = __init__ (Some mapping)
  ∧ getattr dj (__init__ (Some mapping)) name
    = getattr dj' (__init__ (Some mapping)) name.
Proof.
  split.
  - unfold read_all. induction names as [|n names IH]; simpl; [reflexivity|].
    rewrite ConfFacts.getattr_cases.
    destruct (FIXED !! n); [exact IH|].
    destruct (DEFAULT_SETTINGS !! n); exact IH.
  - rewrite !ConfFacts.getattr_cases. reflexivity.
Qed.

(** ** Runs *)

Lemma step_refers_to_instance (st : State) (e : event) :
  refers_to_instance st →
  refers_to_instance (step connection import_time_settings st e).
Proof.
  unfold refers_to_instance. intros Hst. destruct e as [setting value|dj name].
  - simpl. unfold reload_settings, new_Settings.
    case_bool_decide; simpl; [|exact Hst].
    rewrite length_app. simpl. lia.
  - simpl. unfold lookup, getattribute_at.
    destruct (objects st !! settings st) as [self|]; [|exact Hst].
    destruct (getattribute connection import_time_settings dj self name)
      as [r self']. simpl.
    rewrite length_insert. exact Hst.
Qed.

Lemma run_events_refers_to_instance (st : State) (events : list event) :
  refers_to_instance st →
  refers_to_instance (run_events connection import_time_settings st events).
Proof.
  unfold run_events. revert st.
  induction events as [|e events IH]; intros st Hst; simpl; [exact Hst|].
  apply IH, step_refers_to_instance, Hst.
Qed.

(** X5. After the module is loaded, whatever signals are delivered and
    whatever is read, [conf.settings] refers to an instance, and reading a
    fixed key or a default key from it returns a value: known settings
    never raise. *)
Theorem known_settings_always_readable
    (events : list event) (dj : DjangoSettings) (name : string) :
  is_Some (FIXED !! name) ∨ is_Some (DEFAULT_SETTINGS !! name) →
  ∃ v st',
    get connection import_time_settings dj
      (run_events connection import_time_settings initial events) name
    = Some (Return v, st').
Proof.
  intros Hknown.
  assert (Hrun : refers_to_instance
                   (run_events connection import_time_settings initial events)).
  { apply run_events_refers_to_instance. unfold refers_to_instance. simpl. lia. }
  unfold refers_to_instance in Hrun.
  apply lookup_lt_is_Some_2 in Hrun as [self Hself].
  unfold get, getattr_at. rewrite Hself, ConfFacts.getattr_cases.
  destruct (FIXED !! name) as [v|]; [eexists _, _; reflexivity|].
  destruct Hknown as [[v Hv]|[d Hd]]; [discriminate Hv|].
  rewrite Hd. destruct ((user_settings dj self).1 !! name);
    eexists _, _; reflexivity.
Qed.

(** X6. For a name that ordinary lookup does not find and that is not a
    default key, so for a fixed key and for an unknown name, reading
    [conf.settings.name] after a signal, whatever its key and value,
    gives what it gave before: no signal changes a fixed setting or makes
    an unknown name valid. *)
Theorem notification_keeps_non_default_answers
    (st : State) (setting : string) (value : option (gmap string pyval))
    (dj : DjangoSettings) (name : string) :
  is_Some (objects st !! settings st) →
  DEFAULT_SETTINGS !! name = None →
  name ≠ "user_settings" → name ≠ "_user_settings" →
  double_underscore_name name = false →
  fst <$> lookup connection import_time_settings dj
            (reload_settings st setting value) name
  = fst <$> lookup connection import_time_settings dj st name.
Proof.
  intros [self Hself] Hd Hus Hslot Hdunder.
  unfold reload_settings, new_Settings. case_bool_decide; [|reflexivity].
  unfold lookup, getattribute_at. simpl.
  rewrite ConfFacts.lookup_new_location, Hself.
  rewrite !(ConfFacts.getattribute_not_found _ _ _ _ name Hus Hslot Hdunder).
  rewrite !ConfFacts.getattr_cases, Hd.
  destruct (FIXED !! name); reflexivity.
Qed.

End Resolver.

(** X7. [reload_settings] never modifies or removes an instance: whoever holds
    a reference taken before the signals still finds the same instance
    behind it. *)
Theorem notifications_keep_instances
    (st : State) (signals : list (string * option (gmap string pyval)))
    (l : nat) (o : Settings) :
  objects st !! l = Some o → objects (deliver st signals) !! l = Some o.
Proof.
  unfold deliver. revert st.
  induction signals as [|[k v] signals IH]; intros st Hl; simpl; [exact Hl|].
  apply IH. unfold reload_settings, new_Settings.
  case_bool_decide; simpl; [|exact Hl].
  apply lookup_app_l_Some. exact Hl.
Qed.

Lemma deliver_current_from
    (signals : list (string * option (gmap string pyval)))
    (st : State) (acc : option (option (gmap string pyval)))
    (before : option Settings) :
  objects st !! settings st =
    match acc with Some v => Some (__init__ v) | None => before end →
  objects (deliver st signals) !! settings (deliver st signals) =
    match foldl (fun acc kv =>
                   if bool_decide (kv.1 = DJANGO_SETTINGS_KEY)
                   then Some kv.2 else acc) acc signals with
    | Some v => Some (__init__ v)
    | None => before
    end.
Proof.
  unfold deliver. revert st acc.
  induction signals as [|[k v] signals IH]; intros st acc Hst; simpl;
    [exact Hst|].
  apply IH. unfold reload_settings, new_Settings.
  case_bool_decide; simpl; [|exact Hst].
  apply ConfFacts.lookup_new_location.
Qed.

(** X8. After any signals, [conf.settings] is the instance built from the
    value of the last signal sent for the library's key, and the instance
    it was before when there was no such signal. *)
Theorem last_namespace_signal_decides
    (st : State) (signals : list (string * option (gmap string pyval))) :
  objects (deliver st signals) !! settings (deliver st signals) =
    match last_namespace_value signals with
    | Some value => Some (__init__ value)
    | None => objects st !! settings st
    end.
Proof.
  unfold last_namespace_value.
  apply (deliver_current_from signals st None). reflexivity.
Qed.

Lemma append_backtick_inj (s1 s2 : string) :
  s1 +:+ "`" = s2 +:+ "`" → s1 = s2.
Proof.
  revert s2. induction s1 as [|a s1 IH]; intros [|b s2] Heq; simpl in Heq.
  - reflexivity.
  - injection Heq as _ Heq. destruct s2; discriminate Heq.
  - injection Heq as _ Heq. destruct s1; discriminate Heq.
  - injection Heq as -> Heq. f_equal. apply IH, Heq.
Qed.

(** X9. The error tells the name apart: two names that get the same error are
    the same name. *)
Theorem invalid_setting_names_the_key (name1 name2 : string) :
  invalid_setting name1 = invalid_setting name2 → name1 = name2.
Proof.
  unfold invalid_setting. intros [= Heq].
  apply String.app_inj in Heq. apply append_backtick_inj, Heq.
Qed.

Lemma known_settings_always_readable_witness :
  ∃ v st',
    get postgres no_overrides all_of_overrides
      (run_events postgres no_overrides initial
         [Lookup no_overrides "FILTER_KEYS";
          Notify "GRAPHENE_DJANGO_FILTER" None;
          Lookup no_overrides "OR_KEY";
          Notify "DEBUG" None])
      "AND_KEY"
    = Some (Return v, st').
Proof.
  apply (known_settings_always_readable postgres no_overrides
           [Lookup no_overrides "FILTER_KEYS";
            Notify "GRAPHENE_DJANGO_FILTER" None;
            Lookup no_overrides "OR_KEY";
            Notify "DEBUG" None]
           all_of_overrides "AND_KEY").
  right. vm_compute. eexists. reflexivity.
Defined.

Lemma getattr_raises_only_for_unknown_witness :
  FIXED_SETTINGS postgres no_overrides !! "FILTER_KEYS" = None
  ∧ DEFAULT_SETTINGS !! "FILTER_KEYS" = None.
Proof.
  destruct (getattr_raises_only_for_unknown postgres no_overrides
              all_of_overrides (__init__ None) "FILTER_KEYS"
              (AttributeError "Invalid Graphene setting: `FILTER_KEYS`"))
    as (_ & Hfixed & Hdefault & _); [vm_compute; reflexivity|].
  split; [exact Hfixed|exact Hdefault].
Defined.

Lemma notification_keeps_non_default_answers_witness :
  fst <$> lookup postgres no_overrides no_overrides
            (reload_settings initial DJANGO_SETTINGS_KEY
               (Some (<["IS_POSTGRESQL" := PBool false]> ∅)))
            "IS_POSTGRESQL"
  = fst <$> lookup postgres no_overrides no_overrides initial "IS_POSTGRESQL".
Proof.
  apply (notification_keeps_non_default_answers postgres no_overrides
           initial DJANGO_SETTINGS_KEY
           (Some (<["IS_POSTGRESQL" := PBool false]> ∅))
           no_overrides "IS_POSTGRESQL").
  - simpl. eexists. reflexivity.
  - vm_compute. reflexivity.
  - discriminate.
  - discriminate.
  - vm_compute. reflexivity.
Defined.

Lemma notifications_keep_instances_witness :
  objects (deliver initial
             [(DJANGO_SETTINGS_KEY, Some (<["AND_KEY" := PStr "all_of"]> ∅));
              ("DEBUG", None);
              (DJANGO_SETTINGS_KEY, None)]) !! 0
  = Some (__init__ None).
Proof.
  apply (notifications_keep_instances initial
           [(DJANGO_SETTINGS_KEY, Some (<["AND_KEY" := PStr "all_of"]> ∅));
            ("DEBUG", None);
            (DJANGO_SETTINGS_KEY, None)] 0 (__init__ None)).
  reflexivity.
Defined.

Lemma invalid_setting_names_the_key_witness : "AND_KEYS" = "AND_KEYS".
Proof.
  apply (invalid_setting_names_the_key "AND_KEYS" "AND_KEYS"). reflexivity.
Defined.

End ConfExtra.

(** * Further properties of the declared input types *)

Module InputTypeExtra.
Import Conf InputTypes Samples Schema graphene GrapheneFacts GrapheneExtra.
Import DisplayFacts.

Section Namespace.

Variables and_key or_key not_key : pyval.

Local Abbreviation T :=
  (created "SearchQueryInputType"
     (search_query_entries and_key or_key not_key)).

Local Abbreviation list_of_self := (List (Thunk "SearchQueryInputType")).

Lemma search_query_field_names_NoDup : NoDup (field_names T).
Proof.
  unfold field_names, created. cbn [fields]. apply display_fields_NoDup.
Qed.

Lemma search_query_field_names (k : pyval) :
  k ∈ field_names T
  ↔ k ∈ [PStr "value"; PStr "config"; and_key; or_key; not_key].
Proof.
  unfold field_names.
  rewrite <- (dict_get_is_Some (fields T) k).
  change (dict_get (fields T) k) with (get_field T k).
  rewrite InputTypeFacts.search_query_get_field.
  rewrite !elem_of_cons, elem_of_nil.
  split.
  - intros [f Hf]. repeat case_decide; subst;
      first [discriminate Hf | intuition congruence].
  - intros Hk. repeat case_decide; try (eexists; reflexivity).
    exfalso. intuition congruence.
Qed.

(** With six different keys the display keeps every entry where it was
    written, and the five that are fields become the fields. *)
Lemma search_query_fields_distinct :
  NoDup [PStr "__doc__"; PStr "value"; PStr "config";
         and_key; or_key; not_key] →
  fields T =
    [ (PStr "value", mount String true None "Query value");
      (PStr "config",
       mount (Class "SearchConfigInputType") false None "Query config");
      (and_key, mount list_of_self false None "`And` field");
      (or_key, mount list_of_self false None "`Or` field");
      (not_key, mount list_of_self false None "`Not` field") ].
Proof.
  intros Hnd. unfold created, display_fields, creation_order.
  cbn [fields]. rewrite dict_display_distinct by exact Hnd. reflexivity.
Qed.

Lemma search_query_value_shadowed :
  PStr "value" ∈ [and_key; or_key; not_key] →
  type_ <$> get_field T (PStr "value") = Some list_of_self
  ∧ Forall (fun nf => needs_value nf.2 = false) (fields T).
Proof.
  intros Hin.
  destruct (InputTypeFacts.search_query_combinator_field
              and_key or_key not_key (PStr "value") Hin)
    as (f & Hf & Htype & _).
  split; [rewrite Hf; simpl; rewrite Htype; reflexivity|].
  apply Forall_forall. intros [k g] Hg. simpl.
  destruct (needs_value g) eqn:Hneeds; [exfalso|reflexivity].
  pose proof (InputTypeFacts.search_query_needs_value
                and_key or_key not_key k g Hg Hneeds) as ->.
  assert (Hget : get_field T (PStr "value") = Some g).
  { apply dict_get_of_elem; [apply search_query_field_names_NoDup|exact Hg]. }
  rewrite Hf in Hget. injection Hget as <-.
  unfold needs_value in Hneeds. rewrite Htype in Hneeds. discriminate Hneeds.
Qed.

(** The types the fields of the search-query type end in. *)
Lemma search_query_field_types (k : pyval) (f : field) :
  (k, f) ∈ fields T →
  named_type (type_ f) = None
  ∨ named_type (type_ f) = Some "SearchConfigInputType"
  ∨ named_type (type_ f) = Some "SearchQueryInputType".
Proof.
  unfold created. cbn [fields]. intros Hin.
  apply display_fields_elem in Hin as (obj & Hobj & Hf).
  unfold search_query_entries in Hobj.
  repeat (apply elem_of_cons in Hobj as [Heq|Hobj];
          [injection Heq as -> ->; simpl in Hf;
           first [discriminate Hf | injection Hf as <-; simpl; tauto]|]).
  apply elem_of_nil in Hobj. destruct Hobj.
Qed.

Lemma declarations_closed : closed (declarations T) = true.
Proof.
  unfold closed. apply forallb_forall. intros d Hd.
  apply list_elem_of_In in Hd. cbv [declarations] in Hd.
  repeat (apply elem_of_cons in Hd as [->|Hd];
          [first [reflexivity | vm_compute; reflexivity | idtac]|]).
  - apply forallb_forall. intros [k f] Hin. apply list_elem_of_In in Hin.
    unfold resolves. simpl.
    destruct (search_query_field_types k f Hin) as [->|[->| ->]]; reflexivity.
  - apply elem_of_nil in Hd. destruct Hd.
Qed.

Lemma declarations_names_distinct :
  NoDup (map declared_name (declarations T)).
Proof.
  apply (bool_decide_unpack (NoDup (map declared_name (declarations T)))).
  vm_compute. exact I.
Qed.

Lemma SearchQueryType_not_mentioned :
  mentioned (declarations T) "SearchQueryType" = false.
Proof.
  destruct (mentioned (declarations T) "SearchQueryType") eqn:Hm;
    [exfalso|reflexivity].
  unfold mentioned in Hm. apply existsb_exists in Hm as (d & Hd & Hex).
  apply list_elem_of_In in Hd. cbv [declarations] in Hd.
  repeat (apply elem_of_cons in Hd as [->|Hd];
          [first [discriminate Hex | vm_compute in Hex; discriminate Hex | idtac]|]).
  - apply existsb_exists in Hex as ([k f] & Hin & Hb).
    apply list_elem_of_In in Hin. simpl in Hb.
    apply bool_decide_eq_true_1 in Hb.
    destruct (search_query_field_types k f Hin) as [H|[H|H]];
      rewrite H in Hb; discriminate Hb.
  - apply elem_of_nil in Hd. destruct Hd.
Qed.

End Namespace.

(** ** The factory *)

Section Factory.

Variable connection : Connection.
Variable import_time_settings : DjangoSettings.

Local Abbreviation getattr := (__getattr__ connection import_time_settings).
Local Abbreviation create :=
  (create_search_query_input_type connection import_time_settings).

Lemma resolved_key (dj : DjangoSettings) (self : Settings)
    (name : string) (d k : pyval) :
  DEFAULT_SETTINGS !! name = Some d →
  (getattr dj self name).1 = Return k →
  k = default d ((user_settings dj self).1 !! name).
Proof.
  intros Hd. rewrite (InputTypeFacts.getattr_default_key _ _ dj self name d Hd).
  simpl. intros [= <-]. reflexivity.
Qed.

Lemma returned_type (dj : DjangoSettings) (self : Settings)
    (c : InputObjectType) :
  (create dj self).1 = Return c →
  c = created "SearchQueryInputType"
        (search_query_entries
           (default (PStr "and") ((user_settings dj self).1 !! "AND_KEY"))
           (default (PStr "or") ((user_settings dj self).1 !! "OR_KEY"))
           (default (PStr "not") ((user_settings dj self).1 !! "NOT_KEY"))).
Proof.
  rewrite InputTypeFacts.create_search_query_input_type_eq. cbn [fst].
  apply InputTypeFacts.type_new_Return.
Qed.

(** X11. When the three resolved keys are strings other than [Meta] that
    do not begin with an underscore, and differ from each other and from
    [value] and [config], the factory returns a type with exactly five
    fields, in the order written: the required string [value], the
    optional [config], and one optional list of the type itself under
    each key; an object without [value] does not conform. *)
Theorem distinct_keys_give_five_fields
    (dj : DjangoSettings) (self : Settings) (and_key or_key not_key : pyval) :
  (getattr dj self "AND_KEY").1 = Return and_key →
  (getattr dj self "OR_KEY").1 = Return or_key →
  (getattr dj self "NOT_KEY").1 = Return not_key →
  plain_key and_key = true → plain_key or_key = true →
  plain_key not_key = true →
  NoDup [PStr "value"; PStr "config"; and_key; or_key; not_key] →
  ∃ T : InputObjectType,
    (create dj self).1 = Return T
    ∧ fields T =
        [ (PStr "value", mount String true None "Query value");
          (PStr "config",
           mount (Class "SearchConfigInputType") false None "Query config");
          (and_key,
           mount (List (Thunk "SearchQueryInputType")) false None "`And` field");
          (or_key,
           mount (List (Thunk "SearchQueryInputType")) false None "`Or` field");
          (not_key,
           mount (List (Thunk "SearchQueryInputType")) false None "`Not` field") ]
    ∧ conforms (declarations T) (ObjectValue [])
        (Class "SearchQueryInputType") = false.
Proof.
  intros Ha Ho Hn Hpa Hpo Hpn Hnd.
  assert (Hnd' : NoDup [PStr "__doc__"; PStr "value"; PStr "config";
                        and_key; or_key; not_key]).
  { apply NoDup_cons. split; [|exact Hnd].
    intros Hin.
    apply elem_of_cons in Hin as [Hin|Hin]; [discriminate Hin|].
    apply elem_of_cons in Hin as [Hin|Hin]; [discriminate Hin|].
    repeat (apply elem_of_cons in Hin as [Hin|Hin];
            [rewrite <- Hin in *;
             first [ vm_compute in Hpa; discriminate Hpa
                   | vm_compute in Hpo; discriminate Hpo
                   | vm_compute in Hpn; discriminate Hpn ]|]).
    apply elem_of_nil in Hin. exact Hin. }
  apply (resolved_key dj self "AND_KEY" (PStr "and")) in Ha; [|reflexivity].
  apply (resolved_key dj self "OR_KEY" (PStr "or")) in Ho; [|reflexivity].
  apply (resolved_key dj self "NOT_KEY" (PStr "not")) in Hn; [|reflexivity].
  eexists. rewrite InputTypeFacts.create_search_query_input_type_eq.
  rewrite <- Ha, <- Ho, <- Hn. cbn [fst].
  split; [apply InputTypeFacts.type_new_plain; assumption|].
  split; [apply search_query_fields_distinct, Hnd'|].
  rewrite InputTypeFacts.conforms_search_query.
  rewrite (search_query_fields_distinct _ _ _ Hnd'). reflexivity.
Qed.

(** X12. Whatever type the factory returns, it has no field name twice, and
    its field names are [value], [config] and the three resolved keys,
    however many of these coincide. *)
Theorem field_names_of_returned_type
    (dj : DjangoSettings) (self : Settings) (T : InputObjectType)
    (and_key or_key not_key : pyval) :
  (getattr dj self "AND_KEY").1 = Return and_key →
  (getattr dj self "OR_KEY").1 = Return or_key →
  (getattr dj self "NOT_KEY").1 = Return not_key →
  (create dj self).1 = Return T →
  NoDup (field_names T)
  ∧ (∀ k, k ∈ field_names T
          ↔ k ∈ [PStr "value"; PStr "config"; and_key; or_key; not_key]).
Proof.
  intros Ha Ho Hn HT.
  apply (resolved_key dj self "AND_KEY" (PStr "and")) in Ha; [|reflexivity].
  apply (resolved_key dj self "OR_KEY" (PStr "or")) in Ho; [|reflexivity].
  apply (resolved_key dj self "NOT_KEY" (PStr "not")) in Hn; [|reflexivity].
  apply returned_type in HT. subst.
  split; [apply search_query_field_names_NoDup|].
  apply search_query_field_names.
Qed.

(** X13. When a combinator key resolves to [value] and the factory returns a
    type, the entry written later has taken the name: [value] is a list
    of the type itself, no field of the type needs a value, and the empty
    object conforms. *)
Theorem combinator_named_value_replaces_string_field
    (dj : DjangoSettings) (self : Settings) (name : string)
    (T : InputObjectType) :
  name ∈ ["AND_KEY"; "OR_KEY"; "NOT_KEY"] →
  (getattr dj self name).1 = Return (PStr "value") →
  (create dj self).1 = Return T →
  type_ <$> get_field T (PStr "value")
  = Some (List (Thunk "SearchQueryInputType"))
  ∧ Forall (fun nf => needs_value nf.2 = false) (fields T)
  ∧ conforms (declarations T) (ObjectValue [])
      (Class "SearchQueryInputType") = true.
Proof.
  intros Hname Hvalue HT. apply returned_type in HT. subst T.
  assert (Hin : PStr "value" ∈
                  [default (PStr "and") ((user_settings dj self).1 !! "AND_KEY");
                   default (PStr "or") ((user_settings dj self).1 !! "OR_KEY");
                   default (PStr "not") ((user_settings dj self).1 !! "NOT_KEY")]).
  { repeat (apply elem_of_cons in Hname as [->|Hname]).
    - apply (resolved_key dj self "AND_KEY" (PStr "and")) in Hvalue;
        [|reflexivity].
      rewrite <- Hvalue. apply list_elem_of_here.
    - apply (resolved_key dj self "OR_KEY" (PStr "or")) in Hvalue;
        [|reflexivity].
      rewrite <- Hvalue. apply list_elem_of_further, list_elem_of_here.
    - apply (resolved_key dj self "NOT_KEY" (PStr "not")) in Hvalue;
        [|reflexivity].
      rewrite <- Hvalue.
      apply list_elem_of_further, list_elem_of_further, list_elem_of_here.
    - apply elem_of_nil in Hname. destruct Hname. }
  destruct (search_query_value_shadowed _ _ _ Hin) as [Htype Hopt].
  split; [exact Htype|]. split; [exact Hopt|].
  apply (conforms_all_optional _ "SearchQueryInputType" _ []
           (InputTypeFacts.search_query_resolves _ _ _) Hopt).
  split; [apply NoDup_nil_2|apply Forall_nil_2].
Qed.

(** X14. Whatever type the factory returns when the module is loaded, the
    module's declarations hang together: the declared names are all
    different, and every field of every declared input type ends in a
    scalar or in a class the module declares. *)
Theorem declarations_closed_for_returned_type
    (dj : DjangoSettings) (self : Settings) (T : InputObjectType) :
  (create dj self).1 = Return T →
  NoDup (map declared_name (declarations T))
  ∧ closed (declarations T) = true.
Proof.
  intros HT. apply returned_type in HT. subst T.
  split; [apply declarations_names_distinct|apply declarations_closed].
Qed.

(** X15. Whatever type the factory returns when the module is loaded, the
    enum [SearchQueryType] is declared, and no field of any input type the
    module declares is of that enum. *)
Theorem SearchQueryType_declared_and_unused
    (dj : DjangoSettings) (self : Settings) (T : InputObjectType) :
  (create dj self).1 = Return T →
  resolve (declarations T) "SearchQueryType"
  = Some (DeclareEnum SearchQueryType)
  ∧ mentioned (declarations T) "SearchQueryType" = false.
Proof.
  intros HT. apply returned_type in HT. subst T.
  split; [reflexivity|apply SearchQueryType_not_mentioned].
Qed.

End Factory.

Lemma distinct_keys_give_five_fields_witness :
  ∃ T : InputObjectType,
    (create_search_query_input_type postgres no_overrides all_of_overrides
       (__init__ None)).1 = Return T
    ∧ field_names T
      = [PStr "value"; PStr "config"; PStr "all_of"; PStr "or"; PStr "not"].
Proof.
  destruct (distinct_keys_give_five_fields postgres no_overrides
              all_of_overrides (__init__ None)
              (PStr "all_of") (PStr "or") (PStr "not"))
    as (T & HT & Hfields & _); try (vm_compute; reflexivity).
  - apply (bool_decide_unpack
             (NoDup [PStr "value"; PStr "config";
                     PStr "all_of"; PStr "or"; PStr "not"])).
    vm_compute. exact I.
  - exists T. split; [exact HT|].
    unfold field_names. rewrite Hfields. reflexivity.
Defined.

Lemma field_names_of_returned_type_witness :
  NoDup (field_names
           (created "SearchQueryInputType"
              (search_query_entries (PStr "value") (PStr "or") (PStr "not")))).
Proof.
  apply (field_names_of_returned_type postgres no_overrides
           and_key_named_value (__init__ None)
           (created "SearchQueryInputType"
              (search_query_entries (PStr "value") (PStr "or") (PStr "not")))
           (PStr "value") (PStr "or") (PStr "not"));
    vm_compute; reflexivity.
Defined.

Lemma combinator_named_value_replaces_string_field_witness :
  conforms
    (declarations
       (created "SearchQueryInputType"
          (search_query_entries (PStr "value") (PStr "or") (PStr "not"))))
    (ObjectValue []) (Class "SearchQueryInputType") = true.
Proof.
  apply (combinator_named_value_replaces_string_field postgres no_overrides
           and_key_named_value (__init__ None) "AND_KEY"
           (created "SearchQueryInputType"
              (search_query_entries (PStr "value") (PStr "or") (PStr "not")))).
  - apply list_elem_of_here.
  - vm_compute. reflexivity.
  - vm_compute. reflexivity.
Defined.

Lemma declarations_closed_for_returned_type_witness :
  closed default_declarations = true.
Proof.
  apply (declarations_closed_for_returned_type postgres no_overrides
           no_overrides (__init__ None)
           (created "SearchQueryInputType"
              (search_query_entries (PStr "and") (PStr "or") (PStr "not")))).
  vm_compute. reflexivity.
Defined.

Lemma SearchQueryType_declared_and_unused_witness :
  mentioned default_declarations "SearchQueryType" = false.
Proof.
  apply (SearchQueryType_declared_and_unused postgres no_overrides
           no_overrides (__init__ None)
           (created "SearchQueryInputType"
              (search_query_entries (PStr "and") (PStr "or") (PStr "not")))).
  vm_compute. reflexivity.
Defined.

(** ** The static declarations *)

Lemma conforms_NonNull schema (v : value) (t : Type_) :
  conforms schema v (NonNull t) = negb (is_null v) && conforms schema v t.
Proof. destruct v; reflexivity. Qed.

(** X16. An object conforms to [FloatLookups] exactly when it names no lookup
    twice and each entry is one of [exact], [gt], [gte], [lt], [lte] with a
    number or null: every lookup may be left out, and nothing relates the
    bounds to each other. *)
Theorem FloatLookups_conformance
    (schema : list declaration) (entries : list (string * value)) :
  resolve schema "FloatLookups" = Some (DeclareInput FloatLookups) →
  conforms schema (ObjectValue entries) (Class "FloatLookups") = true
  ↔ NoDup (map fst entries)
    ∧ Forall (fun kv =>
                kv.1 ∈ ["exact"; "gt"; "gte"; "lt"; "lte"]
                ∧ conforms schema kv.2 Float = true) entries.
Proof.
  intros Hres.
  rewrite (conforms_all_optional _ _ _ _ Hres)
    by (repeat constructor).
  split; intros [Hnd Hentries]; (split; [exact Hnd|]);
    apply (Forall_impl _ _ _ Hentries); intros [k v]; simpl.
  - intros (f & Hf & Hconf). apply dict_get_elem in Hf.
    unfold FloatLookups, new_InputObjectType in Hf. simpl in Hf.
    repeat (apply elem_of_cons in Hf as [[= -> ->]|Hf];
            [split; [|exact Hconf];
             repeat first [apply list_elem_of_here
                          | apply list_elem_of_further]|]).
    apply elem_of_nil in Hf. destruct Hf.
  - intros [Hk Hconf].
    repeat (apply elem_of_cons in Hk as [->|Hk];
            [eexists; split; [reflexivity|exact Hconf]|]).
    apply elem_of_nil in Hk. destruct Hk.
Qed.

(** X17. An object conforms to [SearchConfigInputType] exactly when it names
    nothing twice and each entry is [value] with a string or null, or
    [is_field] with a boolean or null. *)
Theorem SearchConfigInputType_conformance
    (schema : list declaration) (entries : list (string * value)) :
  resolve schema "SearchConfigInputType"
  = Some (DeclareInput SearchConfigInputType) →
  conforms schema (ObjectValue entries) (Class "SearchConfigInputType") = true
  ↔ NoDup (map fst entries)
    ∧ Forall (fun kv =>
                (kv.1 = "value" ∧ conforms schema kv.2 String = true)
                ∨ (kv.1 = "is_field" ∧ conforms schema kv.2 Boolean = true))
        entries.
Proof.
  intros Hres.
  rewrite (conforms_all_optional _ _ _ _ Hres)
    by (repeat constructor).
  split; intros [Hnd Hentries]; (split; [exact Hnd|]);
    apply (Forall_impl _ _ _ Hentries); intros [k v]; simpl.
  - intros (f & Hf & Hconf). apply dict_get_elem in Hf.
    unfold SearchConfigInputType, new_InputObjectType in Hf. simpl in Hf.
    apply elem_of_cons in Hf as [[= -> ->]|Hf];
      [left; split; [reflexivity|exact Hconf]|].
    apply elem_of_cons in Hf as [[= -> ->]|Hf];
      [right; split; [reflexivity|exact Hconf]|].
    apply elem_of_nil in Hf. destruct Hf.
  - intros [[-> Hconf]|[-> Hconf]];
      (eexists; split; [reflexivity|exact Hconf]).
Qed.

(** X18. An object that conforms to [SearchQueryFilterInputType] has exactly the
    two entries [vector] and [query], neither of them null; the first
    conforms to [SearchVectorInputType] and the second to
    [SearchQueryInputType]. *)
Theorem SearchQueryFilterInputType_entries
    (schema : list declaration) (entries : list (string * value)) :
  resolve schema "SearchQueryFilterInputType"
  = Some (DeclareInput SearchQueryFilterInputType) →
  conforms schema (ObjectValue entries) (Class "SearchQueryFilterInputType")
  = true →
  map fst entries ≡ₚ ["vector"; "query"]
  ∧ (∀ v, ("vector", v) ∈ entries →
       v ≠ Null ∧ conforms schema v (Class "SearchVectorInputType") = true)
  ∧ (∀ v, ("query", v) ∈ entries →
       v ≠ Null ∧ conforms schema v (Class "SearchQueryInputType") = true).
Proof.
  intros Hres Hconf.
  destruct (conforms_object_inv _ _ _ _ Hres Hconf)
    as (Hnd & Hentries & Hgiven).
  assert (Hnon_null : ∀ v t, conforms schema v (NonNull t) = true →
            v ≠ Null ∧ conforms schema v t = true).
  { intros v t Hv. rewrite conforms_NonNull in Hv.
    apply andb_true_iff in Hv as [Hv Ht]. split; [|exact Ht].
    intros ->. discriminate Hv. }
  assert (Hkey : ∀ k, k ∈ map fst entries → k = "vector" ∨ k = "query").
  { intros k Hk. apply list_elem_of_fmap in Hk as ([k' v] & -> & Hin).
    destruct (Hentries _ _ Hin) as (f & Hf & _).
    apply dict_get_elem in Hf.
    unfold SearchQueryFilterInputType, new_InputObjectType in Hf. simpl in Hf.
    apply elem_of_cons in Hf as [[= -> _]|Hf]; [left; reflexivity|].
    apply elem_of_cons in Hf as [[= -> _]|Hf]; [right; reflexivity|].
    apply elem_of_nil in Hf. destruct Hf. }
  assert (Hhas : ∀ k f, (PStr k, f) ∈ fields SearchQueryFilterInputType →
            needs_value f = true → k ∈ map fst entries).
  { intros k f Hin Hneeds. specialize (Hgiven _ _ Hin Hneeds).
    apply list_elem_of_fmap in Hgiven as ([k' v] & [= ->] & Hkv).
    apply list_elem_of_fmap. exists (k', v). split; [reflexivity|exact Hkv]. }
  split; [|split].
  - apply NoDup_Permutation; [exact Hnd| |].
    + apply (bool_decide_unpack (NoDup ["vector"; "query"])).
      vm_compute. exact I.
    + intros k. split.
      * intros Hk. destruct (Hkey k Hk) as [-> | ->];
          [apply list_elem_of_here
          |apply list_elem_of_further, list_elem_of_here].
      * intros Hk.
        apply elem_of_cons in Hk as [->|Hk];
          [|apply elem_of_cons in Hk as [->|Hk];
            [|apply elem_of_nil in Hk; destruct Hk]].
        -- eapply Hhas; [apply list_elem_of_here|reflexivity].
        -- eapply Hhas;
             [apply list_elem_of_further, list_elem_of_here|reflexivity].
  - intros v Hin. destruct (Hentries _ _ Hin) as (f & Hf & Hv).
    injection Hf as <-. apply Hnon_null, Hv.
  - intros v Hin. destruct (Hentries _ _ Hin) as (f & Hf & Hv).
    injection Hf as <-. apply Hnon_null, Hv.
Qed.

Lemma FloatLookups_conformance_witness :
  conforms default_declarations
    (ObjectValue [("gt", Decimal 5 0); ("lt", Integer 1)])
    (Class "FloatLookups") = true.
Proof.
  apply (FloatLookups_conformance default_declarations
           [("gt", Decimal 5 0); ("lt", Integer 1)]); [reflexivity|].
  split.
  - apply (bool_decide_unpack (NoDup ["gt"; "lt"])). vm_compute. exact I.
  - repeat (apply Forall_cons; split;
            [split; [|reflexivity];
             repeat first [apply list_elem_of_here
                          | apply list_elem_of_further]|]).
    apply Forall_nil_2.
Defined.

Lemma SearchConfigInputType_conformance_witness :
  conforms default_declarations
    (ObjectValue [("value", Str "english"); ("is_field", Bool true)])
    (Class "SearchConfigInputType") = true.
Proof.
  apply (SearchConfigInputType_conformance default_declarations
           [("value", Str "english"); ("is_field", Bool true)]);
    [reflexivity|].
  split.
  - apply (bool_decide_unpack (NoDup ["value"; "is_field"])).
    vm_compute. exact I.
  - apply Forall_cons. split; [left; split; reflexivity|].
    apply Forall_cons. split; [right; split; reflexivity|].
    apply Forall_nil_2.
Defined.

Lemma SearchQueryFilterInputType_entries_witness :
  map fst
    [("query", ObjectValue [("value", Str "x")]);
     ("vector", ObjectValue [("fields", ListValue [Str "title"])])]
  ≡ₚ ["vector"; "query"].
Proof.
  apply (SearchQueryFilterInputType_entries default_declarations
           [("query", ObjectValue [("value", Str "x")]);
            ("vector", ObjectValue [("fields", ListValue [Str "title"])])]);
    vm_compute; reflexivity.
Defined.

End InputTypeExtra.
